(** * PVGeo, [PVGeo/ubc/two_file_base.py]: UBC mesh readers and model appenders

    A shallow embedding of the two base classes of the module,
    [ubcMeshReaderBase] and [ModelAppenderBase], together with the part of
    Python and NumPy they rely on, and the properties of the extent
    computation, the model reader and the appender's bookkeeping.

    Conventions.
    - A Python exception is a value of [pyexc]; a computation that may raise
      returns a [result].  A method that mutates [self] is a function from
      the object's state to a result and the new state: assignments made
      before an exception is raised stay visible, as in Python.
    - The file system is the field [read_text] of an environment: a path
      gives the text lines of the file, or the exception raised on opening
      it.
    - [numpy]'s default integer is the 64-bit signed C long; conversions
      that do not fit raise [OverflowError], sums wrap around.
    - The language is Python 3.6 or later. A string is a sequence of
      characters with code points below 256; among these the decimal digits
      are ['0'] to ['9'], and white space is what [str.isspace] says. *)

From Stdlib Require Import ZArith List String Ascii Bool Lia.
From stdpp Require Import gmap strings.
Import ListNotations.

Local Open Scope string_scope.
Local Open Scope Z_scope.

(** ** Python: exceptions, results *)

Module Py.

Inductive pyexc : Type :=
| IOError (msg : string)
| OSError (msg : string)
| PVGeoError (msg : string)
| IndexError
| ValueError
| OverflowError
| AttributeError
| NameError
| TypeError
| NotImplementedError.

Inductive result (A : Type) : Type :=
| Ok (a : A)
| Err (e : pyexc).

Arguments Ok {A} a.
Arguments Err {A} e.

Definition bind {A B : Type} (r : result A) (k : A -> result B) : result B :=
  match r with
  | Ok a => k a
  | Err e => Err e
  end.

Definition is_ok {A : Type} (r : result A) : bool :=
  match r with
  | Ok _ => true
  | Err _ => false
  end.

(** [try: ... except (IOError, OSError) as fe: raise _helpers.PVGeoError(str(fe))] *)
Definition except_io {A : Type} (r : result A) : result A :=
  match r with
  | Err (IOError msg) => Err (PVGeoError msg)
  | Err (OSError msg) => Err (PVGeoError msg)
  | _ => r
  end.

(** [for x in xs: acc = body(acc, x)], stopping at the first exception. *)
Fixpoint for_each {A S : Type} (body : S -> A -> result S) (xs : list A) (acc : S)
  : result S :=
  match xs with
  | [] => Ok acc
  | x :: rest => bind (body acc x) (for_each body rest)
  end.

(** [[f(x) for x in xs]], stopping at the first exception. *)
Fixpoint map_result {A B : Type} (f : A -> result B) (xs : list A) : result (list B) :=
  match xs with
  | [] => Ok []
  | x :: rest =>
      bind (f x) (fun y => bind (map_result f rest) (fun ys => Ok (y :: ys)))
  end.

(** ** Python: strings *)

(** White space, the separators of [str.split()] and the characters
    removed by [str.strip()]: tab, line feed, vertical tab, form feed,
    carriage return (9 to 13), the file, group, record and unit separators
    (28 to 31), space (32), next line (133) and no-break space (160). *)
Definition is_space (c : ascii) : bool :=
  let n := nat_of_ascii c in
  (Nat.leb 9 n && Nat.leb n 13) || (Nat.leb 28 n && Nat.leb n 32)
  || Nat.eqb n 133 || Nat.eqb n 160.

Definition is_empty (s : string) : bool :=
  match s with
  | EmptyString => true
  | String _ _ => false
  end.

(** [s.split()]: maximal runs of characters that are not white space. *)
Fixpoint split_ws (s cur : string) : list string :=
  match s with
  | EmptyString => if is_empty cur then [] else [cur]
  | String c r =>
      if is_space c
      then (if is_empty cur then split_ws r EmptyString else cur :: split_ws r EmptyString)
      else split_ws r (cur ++ String c EmptyString)
  end.

Definition split (s : string) : list string := split_ws s EmptyString.

(** [s.split(d)] for a one-character separator [d]: never empty. *)
Fixpoint split_at (d : ascii) (s cur : string) : list string :=
  match s with
  | EmptyString => [cur]
  | String c r =>
      if Ascii.eqb c d
      then cur :: split_at d r EmptyString
      else split_at d r (cur ++ String c EmptyString)
  end.

Definition split_on (d : ascii) (s : string) : list string := split_at d s EmptyString.

(** [s.split(d)[0]] *)
Definition split_first (d : ascii) (s : string) : string :=
  hd EmptyString (split_on d s).

(** [s.split(d)[-1]] *)
Definition split_last (d : ascii) (s : string) : string :=
  List.last (split_on d s) EmptyString.

Fixpoint lstrip (s : string) : string :=
  match s with
  | EmptyString => EmptyString
  | String c r => if is_space c then lstrip r else s
  end.

Fixpoint rstrip (s : string) : string :=
  match s with
  | EmptyString => EmptyString
  | String c r =>
      let r' := rstrip r in
      if is_space c && is_empty r' then EmptyString else String c r'
  end.

Definition strip (s : string) : string := rstrip (lstrip s).

(** Predicates on strings, for the statements below. *)
Fixpoint no_space (s : string) : bool :=
  match s with
  | EmptyString => true
  | String c r => negb (is_space c) && no_space r
  end.

Fixpoint all_space (s : string) : bool :=
  match s with
  | EmptyString => true
  | String c r => is_space c && all_space r
  end.

Fixpoint has_char (d : ascii) (s : string) : bool :=
  match s with
  | EmptyString => false
  | String c r => Ascii.eqb c d || has_char d r
  end.

(** ** Python: integers *)

(** What [int] takes from the interpreter: the limit on the number of
    digits of a literal, [sys.get_int_max_str_digits()]. It is [4300]
    unless configured otherwise, and [0] where there is no limit (as
    configured, or in a release that does not have one). *)
Class Interpreter : Type := { int_max_str_digits : nat }.

(** The white space [int] skips before and after a literal: that of
    [str.split()] without the four separators 28 to 31. *)
Definition is_int_space (c : ascii) : bool :=
  let n := nat_of_ascii c in
  (Nat.leb 9 n && Nat.leb n 13) || Nat.eqb n 32 || Nat.eqb n 133 || Nat.eqb n 160.

Fixpoint lskip (s : string) : string :=
  match s with
  | EmptyString => EmptyString
  | String c r => if is_int_space c then lskip r else s
  end.

Fixpoint rskip (s : string) : string :=
  match s with
  | EmptyString => EmptyString
  | String c r =>
      let r' := rskip r in
      if is_int_space c && is_empty r' then EmptyString else String c r'
  end.

Definition digit_val (c : ascii) : option Z :=
  let n := nat_of_ascii c in
  if Nat.leb 48 n && Nat.leb n 57 then Some (Z.of_nat (n - 48)) else None.

(** The digits of a literal: decimal digits, with single underscores
    between two of them. The result is the value and the number of digits;
    [after_digit] tells whether the character before was a digit. *)
Fixpoint digits_val (s : string) (after_digit : bool) (acc : Z) (n : nat)
  : option (Z * nat) :=
  match s with
  | EmptyString => if after_digit then Some (acc, n) else None
  | String c r =>
      if Ascii.eqb c "_"
      then (if after_digit then digits_val r false acc n else None)
      else match digit_val c with
           | Some d => digits_val r true (10 * acc + d) (S n)
           | None => None
           end
  end.

(** The limit is looked at for more than 640 digits only, the least value
    it can be set to. *)
Definition over_limit `{Interpreter} (digits : nat) : bool :=
  Nat.ltb 640 digits && Nat.ltb 0 int_max_str_digits
  && Nat.ltb int_max_str_digits digits.

Definition unsigned_val `{Interpreter} (s : string) : option Z :=
  match digits_val s false 0 0 with
  | Some (z, n) => if over_limit n then None else Some z
  | None => None
  end.

Definition signed_val `{Interpreter} (s : string) : option Z :=
  match s with
  | EmptyString => None
  | String c r =>
      if Ascii.eqb c "-" then option_map Z.opp (unsigned_val r)
      else if Ascii.eqb c "+" then unsigned_val r
      else unsigned_val s
  end.

(** [int(s)] for a string: white space, an optional sign, the digits,
    white space; anything else, and a literal with more digits than the
    limit, raises [ValueError]. The result is an unbounded Python integer. *)
Definition int `{Interpreter} (s : string) : result Z :=
  match signed_val (rskip (lskip s)) with
  | Some z => Ok z
  | None => Err ValueError
  end.

(** ** Python: sequences *)

(** [xs[i]]: a negative index counts from the end, an index out of range
    raises [IndexError]. *)
Definition index {A : Type} (xs : list A) (i : Z) : result A :=
  let n := Z.of_nat (length xs) in
  let j := if i <? 0 then i + n else i in
  if (0 <=? j) && (j <? n)
  then match nth_error xs (Z.to_nat j) with
       | Some x => Ok x
       | None => Err IndexError
       end
  else Err IndexError.

(** [range(n)] *)
Definition range (n : Z) : list Z := map Z.of_nat (seq 0 (Z.to_nat n)).

(** [len(xs)] *)
Definition len {A : Type} (xs : list A) : Z := Z.of_nat (length xs).

End Py.

Export Py.

(** Sequencing, written [x ← e; k]. *)
#[export] Instance result_bind : MBind result := fun A B k r => bind r k.
#[export] Instance result_ret : MRet result := @Ok.


(** The value handed to a parameter that takes a file name, a list of file
    names, or nothing. *)
#[warnings="-register-all"]
Inductive pyarg : Type :=
| PNone
| PStr (s : string)
| PList (l : list pyarg).

(** ** NumPy *)

Module Np.

(** What the code sees of its surroundings: the files, the float reader and
    the installed version of the library ([np.__version__], major and
    minor). [genfromtxt_float path] stands for
    [np.genfromtxt(path, dtype=np.float, comments='!')]; the array type [F]
    is left open. *)
Record Env (F : Type) : Type := {
  read_text : string -> result (list string);
  genfromtxt_float : string -> result F;
  version : Z * Z
}.

Arguments read_text {F} e path.
Arguments genfromtxt_float {F} e path.
Arguments version {F} e.

(** An array of dimension zero or one. *)
Inductive ndarray (A : Type) : Type :=
| Scalar (a : A)
| Vector (l : list A).

Arguments Scalar {A} a.
Arguments Vector {A} l.

(** [np.squeeze]: a single row becomes an array of dimension zero. *)
Definition squeeze {A : Type} (rows : list A) : ndarray A :=
  match rows with
  | [a] => Scalar a
  | _ => Vector rows
  end.

(** [a[i]]: an array of dimension zero cannot be indexed. *)
Definition getitem {A : Type} (a : ndarray A) (i : Z) : result A :=
  match a with
  | Scalar _ => Err IndexError
  | Vector l => index l i
  end.

(** [a.ravel()] *)
Definition ravel {A : Type} (a : ndarray A) : list A :=
  match a with
  | Scalar x => [x]
  | Vector l => l
  end.

(** Modelled from the spec: the Text Tokenizer of section 4.1, which the
    code takes from [np.genfromtxt(..., dtype=str, delimiter='\n',
    comments='!')]. Everything at and after the comment marker is removed,
    and the white space at the ends of what is left; blank and pure-comment
    lines are dropped. *)
Definition retained_line (raw : string) : option string :=
  let s := strip (split_first "!" raw) in
  if is_empty s then None else Some s.

Definition retained (raw : list string) : list string := omap retained_line raw.

Definition take_rows {A : Type} (max_rows : option nat) (rows : list A) : list A :=
  match max_rows with
  | Some n => firstn n rows
  | None => rows
  end.

(** [np.genfromtxt(FileName, delimiter='\n', dtype=str, comments='!',
    max_rows=...)]: the retained lines, squeezed. *)
Definition genfromtxt_str {F : Type} (env : Env F) (FileName : string)
    (max_rows : option nat) : result (ndarray string) :=
  raw ← read_text env FileName;
  Ok (squeeze (take_rows max_rows (retained raw))).

(** The default integer type: 64 bits, signed. *)
Definition int_fits (z : Z) : bool := (- 2 ^ 63 <=? z) && (z <? 2 ^ 63).

Definition wrap (z : Z) : Z := (z + 2 ^ 63) mod 2 ^ 64 - 2 ^ 63.

(** Conversion of one string of [np.array(strings, dtype=int)]. *)
Definition to_int `{Interpreter} (s : string) : result Z :=
  z ← int s;
  if int_fits z then Ok z else Err OverflowError.

(** [np.array(strings, dtype=int)] *)
Definition int_array `{Interpreter} (strings : list string) : result (list Z) :=
  map_result to_int strings.

(** [np.sum(a)] of an integer array. *)
Definition sum (a : list Z) : Z := fold_left (fun acc x => wrap (acc + x)) a 0.

(** [x + y] on the default integer type. *)
Definition add (x y : Z) : Z := wrap (x + y).

End Np.

(** ** The module's global names *)

(** The names bound at the top level of [two_file_base.py], by its
    assignments, its imports and its two class statements. A name that is
    neither bound here nor built in raises [NameError] when it is looked
    up. *)
Definition module_globals : list string :=
  ["__all__"; "__displayname__"; "np"; "pd"; "vtk"; "_helpers"; "base";
   "ubcMeshReaderBase"; "ModelAppenderBase"].

Definition lookup_global (globals : list string) (name : string) : result unit :=
  if existsb (String.eqb name) globals then Ok tt else Err NameError.

(** [os.path.basename(p)] on a POSIX path: what follows the last slash. *)
Definition basename (p : string) : string := split_last "/" p.

(** ** [class ubcMeshReaderBase] *)

Module ubcMeshReaderBase.

Import Np.

(** The whole extent [(x0, x1, y0, y1, z0, z1)]. *)
Definition extent : Type := Z * Z * Z * Z * Z * Z.

(** The attributes of the object the methods below read or write.
    [MeshFileName] is kept by the base class and read through
    [GetMeshFileName()]; [Modified_calls] records the calls
    [self.Modified(readAgainMesh=..., readAgainModels=...)], latest first. *)
Record t : Type := {
  MeshFileName : string;
  __dataname : string;
  __useExtName : bool;
  __sizeM : option (list Z);
  Modified_calls : list (bool * bool)
}.

Definition __init__ (meshfile : string) : t :=
  {| MeshFileName := meshfile;
     __dataname := "Data";
     __useExtName := true;
     __sizeM := None;
     Modified_calls := [] |}.

Definition set_sizeM (v : list Z) (self : t) : t :=
  {| MeshFileName := MeshFileName self;
     __dataname := __dataname self;
     __useExtName := __useExtName self;
     __sizeM := Some v;
     Modified_calls := Modified_calls self |}.

Definition Modified (readAgainMesh readAgainModels : bool) (self : t) : t :=
  {| MeshFileName := MeshFileName self;
     __dataname := __dataname self;
     __useExtName := __useExtName self;
     __sizeM := __sizeM self;
     Modified_calls := (readAgainMesh, readAgainModels) :: Modified_calls self |}.

(** [self.__sizeM.shape[0]]: [None] has no attribute [shape]. *)
Definition sizeM_shape0 (self : t) : result Z :=
  match __sizeM self with
  | None => Err AttributeError
  | Some a => Ok (len a)
  end.

Definition Is3D (self : t) : result bool :=
  n ← sizeM_shape0 self; Ok (3 <=? n).

Definition Is2D (self : t) : result bool :=
  n ← sizeM_shape0 self; Ok (n =? 1).

(** One round of the loop of [_genTup]: [ln] is the line split at white
    space; in the first round ([i is 0]) its first token is the origin. *)
Definition _genTup_body (fileLines : ndarray string) (sft : Z)
    (acc : list string * list string) (i : Z) : result (list string * list string) :=
  let '(pts, disc) := acc in
  line ← getitem fileLines (i + sft);
  let ln := split (split_first "!" line) in
  '(pts, ln) ← (if i =? 0
                then o ← index ln 0;
                     w ← index ln 1;
                     r ← index ln 2;
                     Ok ((pts ++ [o])%list, [w; r])
                else Ok (pts, ln));
  w ← index ln 0;
  r ← index ln 1;
  Ok ((pts ++ [w])%list, (disc ++ [r])%list).

Definition _genTup (fileLines : ndarray string) (sft n : Z)
  : result (list string * list string) :=
  for_each (_genTup_body fileLines sft) (range n) ([], []).

Definition _ubcMesh2D_part `{Interpreter} {F : Type} (env : Env F) (FileName : string)
  : result (list string * list string * list string * list string) :=
  fileLines ← except_io (genfromtxt_str env FileName None);
  l0 ← getitem fileLines 0;
  nx ← int (split_first "!" l0);
  l1 ← getitem fileLines (nx + 1);
  nz ← int (split_first "!" l1);
  '(xpts, xdisc) ← _genTup fileLines 1 nx;
  '(zpts, zdisc) ← _genTup fileLines (2 + nx) nz;
  Ok (xpts, xdisc, zpts, zdisc).

(** The first retained line, read with [max_rows=1] where the library has
    it (1.10 and later, as the code tests it) and out of the whole file
    otherwise. *)
Definition has_max_rows {F : Type} (env : Env F) : bool :=
  let '(v0, v1) := version env in (1 <=? v0) && (10 <=? v1).

Definition read_first_line {F : Type} (env : Env F) (FileName : string)
  : result (ndarray string) :=
  except_io
    (if has_max_rows env
     then genfromtxt_str env FileName (Some 1%nat)
     else (a ← genfromtxt_str env FileName None;
           s ← getitem a 0;
           Ok (Scalar s))).

(** [header] is the first retained line of the file at [path], and the
    code gets hold of it: without [max_rows] the array of all retained
    lines is indexed, which needs a second retained line. *)
Definition first_retained_line {F : Type} (env : Env F) (path header : string) : Prop :=
  exists raw rest,
    read_text env path = Ok raw /\
    retained raw = header :: rest /\
    (has_max_rows env = true \/ rest <> []).

(** The part of [_ReadExtent] after [self.__sizeM] is assigned. *)
Definition extent_of_size `{Interpreter} {F : Type} (env : Env F) (FileName : string)
    (sizeM : list Z) : result extent :=
  if len sizeM =? 1 then
    '(xpts, xdisc, zpts, zdisc) ← _ubcMesh2D_part env FileName;
    xd ← int_array xdisc;
    let nx := add (sum xd) 1 in
    zd ← int_array zdisc;
    let nz := add (sum zd) 1 in
    Ok (0, nx, 0, 1, 0, nz)
  else if 3 <=? len sizeM then
    ne ← index sizeM 0;
    nn ← index sizeM 1;
    nz ← index sizeM 2;
    Ok (0, ne, 0, nn, 0, nz)
  else Err (PVGeoError "File format not recognized").

Definition _ReadExtent `{Interpreter} {F : Type} (env : Env F) (self : t)
  : result extent * t :=
  let FileName := MeshFileName self in
  match (msh ← read_first_line env FileName;
         first ← index (ravel msh) 0;
         int_array (split first)) with
  | Err e => (Err e, self)
  | Ok sizeM => (extent_of_size env FileName sizeM, set_sizeM sizeM self)
  end.

(** The value returned by [ubcModel3D]: an array, or a dictionary from
    base names to such values. *)
#[warnings="-register-all"]
Inductive models (F : Type) : Type :=
| Array (data : F)
| Dict (d : gmap string (models F)).

Arguments Array {F} data.
Arguments Dict {F} d.

(** [os.path.basename(f)] for an argument [f]. *)
Definition basename_of (f : pyarg) : result string :=
  match f with
  | PStr s => Ok (basename s)
  | _ => Err TypeError
  end.

(** [ubcModel3D], with the global names of the module it runs in as a
    parameter. In [out[os.path.basename(f)] = ubcMeshReaderBase.ubcModel3D(f)]
    the right-hand side is evaluated first, then [os] is looked up. *)
Fixpoint ubcModel3D_in {F : Type} (globals : list string) (env : Env F)
    (FileName : pyarg) : result (models F) :=
  match FileName with
  | PList l =>
      out ← for_each
              (fun (out : gmap string (models F)) (f : pyarg) =>
                 v ← ubcModel3D_in globals env f;
                 _ ← lookup_global globals "os";
                 k ← basename_of f;
                 Ok (<[k := v]> out))
              l ∅;
      Ok (Dict out)
  | PStr s =>
      data ← except_io (genfromtxt_float env s);
      Ok (Array data)
  | PNone => Err TypeError
  end.

Definition ubcModel3D {F : Type} (env : Env F) (FileName : pyarg)
  : result (models F) :=
  ubcModel3D_in module_globals env FileName.

(** The global names of a module that also has [import os]. *)
Definition with_os : list string := "os" :: module_globals.

(** Every entry of the dictionary is the array read from one of [paths],
    under the base name of that path. *)
Definition read_from {F : Type} (env : Env F) (paths : list string)
    (d : gmap string (models F)) : Prop :=
  forall k v, d !! k = Some v ->
    exists p data,
      In p paths /\ basename p = k /\ genfromtxt_float env p = Ok data /\ v = Array data.

Definition set_names (name : string) (flag : bool) (self : t) : t :=
  {| MeshFileName := MeshFileName self;
     __dataname := name;
     __useExtName := flag;
     __sizeM := __sizeM self;
     Modified_calls := Modified_calls self |}.

Definition SetUseExtensionAsName (flag : bool) (self : t) : t :=
  if negb (Bool.eqb (__useExtName self) flag)
  then Modified false false (set_names (__dataname self) flag self)
  else self.

Definition SetDataName (name : string) (self : t) : t :=
  if String.eqb name ""
  then Modified false false (set_names (__dataname self) true self)
  else if negb (String.eqb (__dataname self) name)
  then Modified false false (set_names name false self)
  else self.

End ubcMeshReaderBase.

(** ** [class ModelAppenderBase] *)

Module ModelAppenderBase.

(** What [GetModelFileNames] returns: the list itself, or one of its names. *)
Inductive names_or_name : Type :=
| Names (l : list string)
| Name (s : string).

Section Appender.

(** Time values and loaded models are floats and arrays of floats, grids
    are VTK objects; the bookkeeping below does not look inside them. *)
Context {Time Model Grid : Type}.

(** The attributes of the object. [MTime] counts the calls of
    [base.AlgorithmBase.Modified(self)]. [__needToRead] is kept as a truth
    value: the code only ever tests it. *)
Record t : Type := {
  _modelFileNames : list string;
  __dataname : string;
  __useExtName : bool;
  _models : list Model;
  __needToRead : bool;
  _is3D : option bool;
  __dt : Time;
  __timesteps : option (list Time);
  __inTimesteps : option (list Time);
  MTime : nat
}.

(** [__init__(modelfiles=..., dataname=..., dt=...)]; the defaults of the
    keywords are [[]], ['Appended Data'] and [1.0]. *)
Definition __init__ (modelfiles : list string) (dataname : string) (dt : Time) : t :=
  {| _modelFileNames := modelfiles;
     __dataname := dataname;
     __useExtName := true;
     _models := [];
     __needToRead := true;
     _is3D := None;
     __dt := dt;
     __timesteps := None;
     __inTimesteps := None;
     MTime := 0 |}.

Definition set_files (names : list string) (models : list Model) (self : t) : t :=
  {| _modelFileNames := names;
     __dataname := __dataname self;
     __useExtName := __useExtName self;
     _models := models;
     __needToRead := __needToRead self;
     _is3D := _is3D self;
     __dt := __dt self;
     __timesteps := __timesteps self;
     __inTimesteps := __inTimesteps self;
     MTime := MTime self |}.

Definition set_names (name : string) (flag : bool) (self : t) : t :=
  {| _modelFileNames := _modelFileNames self;
     __dataname := name;
     __useExtName := flag;
     _models := _models self;
     __needToRead := __needToRead self;
     _is3D := _is3D self;
     __dt := __dt self;
     __timesteps := __timesteps self;
     __inTimesteps := __inTimesteps self;
     MTime := MTime self |}.

Definition set_needToRead (flag : bool) (mtime : nat) (self : t) : t :=
  {| _modelFileNames := _modelFileNames self;
     __dataname := __dataname self;
     __useExtName := __useExtName self;
     _models := _models self;
     __needToRead := flag;
     _is3D := _is3D self;
     __dt := __dt self;
     __timesteps := __timesteps self;
     __inTimesteps := __inTimesteps self;
     MTime := mtime |}.

Definition set_times (is3D : option bool) (timesteps inTimesteps : option (list Time))
    (self : t) : t :=
  {| _modelFileNames := _modelFileNames self;
     __dataname := __dataname self;
     __useExtName := __useExtName self;
     _models := _models self;
     __needToRead := __needToRead self;
     _is3D := is3D;
     __dt := __dt self;
     __timesteps := timesteps;
     __inTimesteps := inTimesteps;
     MTime := MTime self |}.

(** [_helpers.updateTimeSteps(self, self._modelFileNames, self.__dt)] *)
Variable updateTimeSteps : list string -> Time -> list Time.

(** [__SetInputTimesteps]; [ints] is what [_helpers.getInputTimeSteps(self)]
    gives. *)
Definition __SetInputTimesteps (ints : option (list Time)) (self : t) : list Time * t :=
  let v := match ints with
           | Some l => l
           | None => []
           end in
  (v, set_times (_is3D self) (__timesteps self) (Some v) self).

(** [__UpdateTimeSteps]: [len(self.__inTimesteps)] raises [TypeError] while
    the attribute is [None]; [and] does not evaluate it when there is no
    file name. *)
Definition __UpdateTimeSteps (self : t) : result Z * t :=
  if 0 <? len (_modelFileNames self) then
    match __inTimesteps self with
    | None => (Err TypeError, self)
    | Some ints =>
        if len ints <? len (_modelFileNames self)
        then (Ok 1,
              set_times (_is3D self)
                (Some (updateTimeSteps (_modelFileNames self) (__dt self)))
                (__inTimesteps self) self)
        else (Ok 1, self)
    end
  else (Ok 1, self).

(** [NeedToRead(flag)]; [flag] is [None] or a truth value. *)
Definition NeedToRead (flag : option bool) (self : t) : result bool * t :=
  match flag with
  | Some b =>
      let self := set_needToRead b (MTime self) self in
      match __UpdateTimeSteps self with
      | (Ok _, self) => (Ok (__needToRead self), self)
      | (Err e, self) => (Err e, self)
      end
  | None => (Ok (__needToRead self), self)
  end.

(** [Modified(readAgain)]; the default of [readAgain] is [True]. *)
Definition Modified (readAgain : bool) (self : t) : t :=
  set_needToRead (if readAgain then readAgain else __needToRead self)
    (S (MTime self)) self.

Definition HasModels (self : t) : bool := 0 <? len (_modelFileNames self).

Definition ClearModels (self : t) : t :=
  Modified true (set_files [] [] self).

(** [fname not in self._modelFileNames] *)
Definition not_in (fname : string) (names : list string) : bool :=
  negb (existsb (String.eqb fname) names).

(** Every element of [l] is a string that is in [names]. *)
Definition all_present (l : list pyarg) (names : list string) : bool :=
  forallb (fun f => match f with
                    | PStr s => negb (not_in s names)
                    | _ => false
                    end) l.

Fixpoint AddModelFileName (fname : pyarg) (self : t) : t :=
  match fname with
  | PNone => self
  | PList l =>
      Modified true (fold_left (fun self f => AddModelFileName f self) l self)
  | PStr s =>
      if not_in s (_modelFileNames self)
      then Modified true
             (set_files (_modelFileNames self ++ [s])%list (_models self) self)
      else self
  end.

Definition GetModelFileNames (idx : option Z) (self : t) : result names_or_name :=
  match idx with
  | None => Ok (Names (_modelFileNames self))
  | Some i =>
      if negb (HasModels self)
      then Ok (Names (_modelFileNames self))
      else s ← index (_modelFileNames self) i; Ok (Name s)
  end.

Definition SetUseExtensionAsName (flag : bool) (self : t) : t :=
  if negb (Bool.eqb (__useExtName self) flag)
  then Modified false (set_names (__dataname self) flag self)
  else self.

Definition SetDataName (name : string) (self : t) : t :=
  if String.eqb name ""
  then Modified false (set_names (__dataname self) true self)
  else if negb (String.eqb (__dataname self) name)
  then Modified false (set_names name false self)
  else self.

(** [GetDataName]: a list has no attribute [split]. *)
Definition GetDataName (self : t) : result string :=
  if __useExtName self then
    mname ← GetModelFileNames (Some 0) self;
    match mname with
    | Name s => Ok (split_last "." s)
    | Names _ => Err AttributeError
    end
  else Ok (__dataname self).

(** [RequestInformation]; [rectilinear] and [extent3] stand for
    [isinstance(pdi, vtk.vtkRectilinearGrid)] and [pdi.GetExtent()[3]]. *)
Definition RequestInformation (ints : option (list Time)) (rectilinear : bool)
    (extent3 : Z) (self : t) : result Z * t :=
  let '(_, self) := __SetInputTimesteps ints self in
  match __UpdateTimeSteps self with
  | (Err e, self) => (Err e, self)
  | (Ok _, self) =>
      let is3D := negb (rectilinear && (extent3 =? 1)) in
      (Ok 1, set_times (Some is3D) (__timesteps self) (__inTimesteps self) self)
  end.

Definition GetTimestepValues (ints : option (list Time)) (self : t)
  : option (list Time) * t :=
  match __timesteps self with
  | None =>
      let '(v, self) := __SetInputTimesteps ints self in
      (Some v, set_times (_is3D self) (Some v) (__inTimesteps self) self)
  | Some v => (Some v, self)
  end.

(** The two methods a subclass provides. In the base class itself
    [_PlaceOnMesh] raises [NotImplementedError] and [_ReadUpFront], whose
    body names the undefined [NotImpelementedError], raises [NameError]. *)
Variable _ReadUpFront : t -> result unit * t.
Variable _PlaceOnMesh : Z -> t * Grid -> result unit * (t * Grid).

(** [RequestData]; [pdi] is the input grid, [output] the output grid as it
    is before the call and [i] the index that
    [_helpers.getRequestedTime(self, outInfo)] gives. The state after the
    call is the object and the output grid. *)
Definition RequestData (pdi output : Grid) (i : Z) (self : t)
  : result Z * (t * Grid) :=
  let output := pdi in
  let '(r, self) := if __needToRead self then _ReadUpFront self else (Ok tt, self) in
  match r with
  | Err e => (Err e, (self, output))
  | Ok _ =>
      if i <? len (_models self) then
        match _PlaceOnMesh i (self, output) with
        | (Err e, s) => (Err e, s)
        | (Ok _, s) => (Ok 1, s)
        end
      else (Ok 1, (self, output))
  end.

End Appender.

Arguments t : clear implicits.

End ModelAppenderBase.

(** ** A concrete environment and a concrete appender *)

Module Demo.

Import Np.

(** A file system given by a table of paths and text lines; a path that is
    not in the table cannot be opened. The float reader gives the tokens of
    the retained lines, in order, as they are written. *)
Definition lookup_file (files : list (string * list string)) (path : string)
  : result (list string) :=
  match List.find (fun entry => String.eqb (fst entry) path) files with
  | Some entry => Ok (snd entry)
  | None => Err (IOError ("No such file or directory: " ++ path))
  end.

Definition env_of (files : list (string * list string)) (v : Z * Z)
  : Env (list string) :=
  {| read_text := lookup_file files;
     genfromtxt_float := fun path =>
       raw ← lookup_file files path; Ok (concat (map split (retained raw)));
     version := v |}.

(** A 2D mesh with two runs on each axis, a 3D mesh, a header of two
    tokens, 2D meshes with a run line missing, with a count that is not a
    number and with a repeat count that is not a number, and a model. *)
Definition mesh2D : list string :=
  ["! nx, the X runs, nz, the Z runs";
   "2"; "0 10 2  ! origin, width, repeat"; "20 3";
   "";
   "2"; "0 10 2"; "20 3"].

Definition mesh3D : list string :=
  ["4 5 6"; "0.0 0.0 0.0"; "4*10.0"; "5*10.0"; "6*5.0"].

Definition files : list (string * list string) :=
  [("mesh2d.msh", mesh2D);
   ("mesh3d.msh", mesh3D);
   ("header.msh", ["4 5 6"]);
   ("two.msh", ["4 5"; "0.0 0.0"]);
   ("words.msh", ["north east"; "0.0 0.0"]);
   ("short.msh", ["2"; "0 10 2"; "20 3"; "2"; "0 10 2"]);
   ("nocount.msh", ["2"; "0 10 2"; "20 3"]);
   ("badcount.msh", ["2"; "0 10 2"; "20 3"; "two"; "0 10 2"; "20 3"]);
   ("badrepeat.msh", ["2"; "0 10 2"; "20 3.5"; "2"; "0 10 2"; "20 3"]);
   ("/data/a.mod", ["1.0 2.0"; "3.0 4.0"; "! note"])].

Definition env : Env (list string) := env_of files (1, 15).

(** The interpreter as it is configured by default. *)
Definition interpreter : Interpreter := {| int_max_str_digits := 4300 |}.

(** Modelled from the spec: [_helpers.updateTimeSteps], which is not part
    of the file; the time of the file at position [index] is [index * dt]
    (section 3, TimestepTable). Times are integers here. *)
Definition updateTimeSteps (names : list string) (dt : Z) : list Z :=
  map (fun index => index * dt) (range (len names)).

(** A subclass in miniature: a model is the list of its values, the grid is
    its cell data, a list of named arrays. [_ReadUpFront] loads one model
    per file name and clears the flag through [NeedToRead(flag=False)];
    [_PlaceOnMesh] adds the model of the given index under the data name. *)
Definition Grid : Type := list (string * list Z).

Definition appender : Type := ModelAppenderBase.t Z (list Z).

Definition _ReadUpFront (self : appender) : result unit * appender :=
  let loaded := map (fun name => [Z.of_nat (String.length name)])
                    (ModelAppenderBase._modelFileNames self) in
  let self := ModelAppenderBase.set_files
                (ModelAppenderBase._modelFileNames self) loaded self in
  match ModelAppenderBase.NeedToRead updateTimeSteps (Some false) self with
  | (Ok _, self) => (Ok tt, self)
  | (Err e, self) => (Err e, self)
  end.

Definition _PlaceOnMesh (idx : Z) (state : appender * Grid)
  : result unit * (appender * Grid) :=
  let '(self, output) := state in
  match index (ModelAppenderBase._models self) idx,
        ModelAppenderBase.GetDataName self with
  | Ok m, Ok name => (Ok tt, (self, (name, m) :: output))
  | Err e, _ => (Err e, state)
  | _, Err e => (Err e, state)
  end.

(** An appender without a file, as [ModelAppenderBase()] makes it. *)
Definition fresh : appender := ModelAppenderBase.__init__ [] "Appended Data" 1.

(** An appender that was given three files, has seen the pipeline's (empty)
    list of time steps and has read its models. *)
Definition loaded : appender :=
  let self := ModelAppenderBase.AddModelFileName
                (PList [PStr "run/t0.mod"; PStr "run/t1.mod"; PStr "run/t2.mod"]) fresh in
  let self := snd (ModelAppenderBase.RequestInformation updateTimeSteps None true 1 self) in
  snd (_ReadUpFront self).

(** The cell data of the input grid of a request. *)
Definition input_grid : Grid := [("Elevation", [1; 2; 3])].

End Demo.

(** ** The 2D mesh format, as the specification describes it *)

Module Spec.

(** AxisDiscretization (section 3): an origin and the runs, pairs of a cell
    width and a repeat count. The origin and the widths are kept as they
    are written in the file: the extent does not depend on their values.
    An axis without a run has no origin line. *)
Record AxisDiscretization : Type := {
  origin : option string;
  runs : list (string * Z)
}.

Definition repeats (a : AxisDiscretization) : list Z := map snd (runs a).

(** The sum of [repeatCount] over all runs. *)
Definition cellCount (a : AxisDiscretization) : Z := fold_right Z.add 0 (repeats a).

(** Every repeat count is at least one, and the number of ticks of the axis
    is a machine integer. *)
Definition representable (a : AxisDiscretization) : bool :=
  forallb (fun r => 1 <=? r) (repeats a) && (cellCount a + 1 <? 2 ^ 63).

Definition integer `{Interpreter} (token : string) : option Z :=
  match int token with
  | Ok z => Some z
  | Err _ => None
  end.


(** The first line of an axis: [origin, width0, repeat0]. *)
Definition first_run `{Interpreter} (line : string)
  : option (string * (string * Z)) :=
  match split line with
  | [o; w; r] => z ← integer r; Some (o, (w, z))
  | _ => None
  end.

(** Each subsequent line: exactly two tokens [(width_i, repeat_i)]. *)
Definition next_run `{Interpreter} (line : string) : option (string * Z) :=
  match split line with
  | [w; r] => z ← integer r; Some (w, z)
  | _ => None
  end.

(** [genTup(startLine, n)]: the [n] lines from [startLine] on must be
    there. *)
Definition genTup `{Interpreter} (lines : list string) (startLine n : nat)
  : option AxisDiscretization :=
  let block := firstn n (skipn startLine lines) in
  if Nat.eqb (length block) n then
    match block with
    | [] => Some {| origin := None; runs := [] |}
    | line0 :: rest =>
        '(o, run0) ← first_run line0;
        more ← mapM next_run rest;
        Some {| origin := Some o; runs := run0 :: more |}
    end
  else None.

(** A line that holds a count: one token, a non-negative integer. *)
Definition count_line `{Interpreter} (lines : list string) (k : nat) : option nat :=
  line ← nth_error lines k;
  match split line with
  | [c] => z ← integer c; if 0 <=? z then Some (Z.to_nat z) else None
  | _ => None
  end.

(** The header layout of section 4.3, on the retained lines of a file:
    line [0] holds [nx], lines [1..nx] the X runs, line [nx+1] holds [nz],
    lines [nx+2..nx+1+nz] the Z runs. A file is a valid 2D mesh when this
    gives its two axes. *)
Definition mesh2D `{Interpreter} (lines : list string)
  : option (AxisDiscretization * AxisDiscretization) :=
  nx ← count_line lines 0;
  xs ← genTup lines 1 nx;
  nz ← count_line lines (nx + 1);
  zs ← genTup lines (nx + 2) nz;
  if representable xs && representable zs then Some (xs, zs) else None.

(** [computeWholeExtent] for the 2D dialect. *)
Definition wholeExtent2D (xs zs : AxisDiscretization) : Z * Z * Z * Z * Z * Z :=
  (0, cellCount xs + 1, 0, 1, 0, cellCount zs + 1).

End Spec.

(** ** Notions for the further properties *)

Module More.

Import Np.

(** The strings of an argument of [AddModelFileName], in the order in which
    the recursion over nested lists meets them; [None] has none. *)
Fixpoint strings_of (fname : pyarg) : list string :=
  match fname with
  | PNone => []
  | PStr s => [s]
  | PList l => flat_map strings_of l
  end.

(** [names], followed by the strings of [new] that are not there yet, each
    one once, in the order of their first occurrence. *)
Definition add_new (names new : list string) : list string :=
  fold_left
    (fun acc s => if ModelAppenderBase.not_in s acc then (acc ++ [s])%list else acc)
    new names.

(** [r] is the failure to open or read a file, with the message [msg]. *)
Definition io_failure {A : Type} (r : result A) (msg : string) : Prop :=
  r = Err (IOError msg) \/ r = Err (OSError msg).


(** [self'] differs from [self] at most in the list of file names, the
    count of [Modified] calls, which has not gone down, and the read flag,
    which has not been cleared. *)
Definition only_files_touched {Time Model : Type}
    (self self' : ModelAppenderBase.t Time Model) : Prop :=
  ModelAppenderBase._models self' = ModelAppenderBase._models self /\
  ModelAppenderBase.__dataname self' = ModelAppenderBase.__dataname self /\
  ModelAppenderBase.__useExtName self' = ModelAppenderBase.__useExtName self /\
  ModelAppenderBase._is3D self' = ModelAppenderBase._is3D self /\
  ModelAppenderBase.__dt self' = ModelAppenderBase.__dt self /\
  ModelAppenderBase.__timesteps self' = ModelAppenderBase.__timesteps self /\
  ModelAppenderBase.__inTimesteps self' = ModelAppenderBase.__inTimesteps self /\
  (ModelAppenderBase.MTime self <= ModelAppenderBase.MTime self')%nat /\
  (ModelAppenderBase.__needToRead self = true ->
   ModelAppenderBase.__needToRead self' = true).

(** A file system with one mesh file that holds comments and blank lines
    only, under a library with [max_rows] and under one without. *)
Definition comments_only (v : Z * Z) : Env (list string) :=
  Demo.env_of [("comments.msh", ["! UBC mesh"; ""; "   ! nothing else"])] v.


(** [_ReadUpFront] and [_PlaceOnMesh] as [ModelAppenderBase] itself defines
    them: [raise NotImpelementedError()] looks up a name that neither the
    module nor the built-ins bind, [raise NotImplementedError()] raises the
    built-in exception. *)
Definition base_ReadUpFront {Time Model : Type} (self : ModelAppenderBase.t Time Model)
  : result unit * ModelAppenderBase.t Time Model :=
  match lookup_global module_globals "NotImpelementedError" with
  | Ok _ => (Err NotImplementedError, self)
  | Err e => (Err e, self)
  end.

Definition base_PlaceOnMesh {Time Model Grid : Type} (idx : Z)
    (state : ModelAppenderBase.t Time Model * Grid)
  : result unit * (ModelAppenderBase.t Time Model * Grid) :=
  (Err NotImplementedError, state).

(** Lines 87 to 99 of [_ReadExtent]: the integers of the first retained
    line, as the call assigns them to [self.__sizeM]. *)
Definition header_size `{Interpreter} {F : Type} (env : Env F) (FileName : string)
  : result (list Z) :=
  msh ← ubcMeshReaderBase.read_first_line env FileName;
  first ← index (ravel msh) 0;
  int_array (split first).

(** The calls that change a reader: [_ReadExtent()], with the files as they
    are when it is called, [SetUseExtensionAsName(flag)] and
    [SetDataName(name)]. *)
Inductive call (F : Type) : Type :=
| ReadExtent (env : Env F)
| UseExtensionAsName (flag : bool)
| DataName (name : string).

Arguments ReadExtent {F} env.
Arguments UseExtensionAsName {F} flag.
Arguments DataName {F} name.

Definition after_call `{Interpreter} {F : Type} (self : ubcMeshReaderBase.t)
    (c : call F) : ubcMeshReaderBase.t :=
  match c with
  | ReadExtent env => snd (ubcMeshReaderBase._ReadExtent env self)
  | UseExtensionAsName flag => ubcMeshReaderBase.SetUseExtensionAsName flag self
  | DataName name => ubcMeshReaderBase.SetDataName name self
  end.

(** The reader after the calls [cs], made in this order. *)
Definition after_calls `{Interpreter} {F : Type} (cs : list (call F))
    (self : ubcMeshReaderBase.t) : ubcMeshReaderBase.t :=
  fold_left after_call cs self.

(** The header of the mesh file [path] as the calls [cs] have converted it
    last, if any of them has: a call of [_ReadExtent] whose header
    conversion raises counts as little as a setter. *)
Definition header_step `{Interpreter} {F : Type} (path : string)
    (seen : option (list Z)) (c : call F) : option (list Z) :=
  match c with
  | ReadExtent env =>
      match header_size env path with
      | Ok sizeM => Some sizeM
      | Err _ => seen
      end
  | _ => seen
  end.

Definition last_header `{Interpreter} {F : Type} (path : string) (cs : list (call F))
  : option (list Z) :=
  fold_left (header_step path) cs None.

(** The call is a [_ReadExtent] that gets as far as converting the header
    of [path]. *)
Definition converts `{Interpreter} {F : Type} (path : string) (c : call F) : bool :=
  match c with
  | ReadExtent env => is_ok (header_size env path)
  | _ => false
  end.

(** A library without [max_rows] and a mesh file that is one line of two
    integers. *)
Definition legacy_pair : Env (list string) :=
  Demo.env_of [("pair.msh", ["4 5"])] (1, 9).

(** An appender that was given one file and has seen the pipeline's list of
    time steps, and has not read its model yet. *)
Definition pending : Demo.appender :=
  snd (ModelAppenderBase.RequestInformation Demo.updateTimeSteps None true 1
         (ModelAppenderBase.AddModelFileName (PStr "run/t0.mod") Demo.fresh)).

End More.

(** * Properties *)

(** ** Strings *)

Section Strings.

Lemma append_nil (r : string) : "" ++ r = r.
Proof. reflexivity. Qed.

Lemma append_cons (a : ascii) (s r : string) : String a s ++ r = String a (s ++ r).
Proof. reflexivity. Qed.

Lemma append_empty_r (s : string) : s ++ "" = s.
Proof.
  induction s as [| c s IH]; [reflexivity |]. now rewrite append_cons, IH.
Qed.

Lemma append_snoc (s r : string) (c : ascii) :
  (s ++ String c "") ++ r = s ++ String c r.
Proof.
  induction s as [| a s IH]; [reflexivity |]. now rewrite !append_cons, IH.
Qed.





Lemma rstrip_tail (c t : string) :
  no_space c = true -> all_space t = true -> rstrip (c ++ t) = c.
Proof.
  intros Hc Ht. induction c as [| a c IH].
  - rewrite append_nil. induction t as [| b t IHt]; [reflexivity |].
    cbn in Ht. apply andb_true_iff in Ht as [Hb Ht].
    cbn. rewrite (IHt Ht), Hb. reflexivity.
  - rewrite append_cons. cbn in Hc. apply andb_true_iff in Hc as [Ha Hc].
    cbn. rewrite (IH Hc). apply negb_true_iff in Ha. rewrite Ha. reflexivity.
Qed.

Lemma strip_no_space (c : string) : no_space c = true -> strip c = c.
Proof.
  intros Hc. unfold strip.
  assert (Hl : lstrip c = c).
  { destruct c as [| a c]; [reflexivity |]. cbn in *.
    apply andb_true_iff in Hc as [Ha _]. apply negb_true_iff in Ha. now rewrite Ha. }
  rewrite Hl. rewrite <- (append_empty_r c) at 1. now apply rstrip_tail.
Qed.







Lemma has_char_snoc (d : ascii) (s : string) (c : ascii) :
  has_char d s = false -> Ascii.eqb c d = false -> has_char d (s ++ String c "") = false.
Proof.
  intros Hs Hc. induction s as [| a s IH].
  - rewrite append_nil. cbn. now rewrite Hc.
  - rewrite append_cons. cbn in *.
    apply orb_false_iff in Hs as [Ha Hs]. rewrite Ha. cbn. now apply IH.
Qed.







End Strings.

(** ** Sequences *)

Lemma index_nat {A : Type} (xs : list A) (k : nat) (x : A) :
  nth_error xs k = Some x -> index xs (Z.of_nat k) = Ok x.
Proof.
  intros Hk. unfold index.
  assert (k < length xs)%nat by (apply nth_error_Some; congruence).
  destruct (Z.of_nat k <? 0) eqn:E; [lia |].
  destruct (0 <=? Z.of_nat k) eqn:E0; [| lia].
  destruct (Z.of_nat k <? Z.of_nat (length xs)) eqn:E1; [| lia].
  cbn [andb]. rewrite Nat2Z.id, Hk. reflexivity.
Qed.


Lemma index_0 {A : Type} (x : A) (xs : list A) : index (x :: xs) 0 = Ok x.
Proof. apply (index_nat (x :: xs) 0 x). reflexivity. Qed.

Ltac run := unfold mbind, result_bind; cbn [bind Np.ravel fst snd].

(** ** Machine integers *)

Section Integers.

Import Np.

Context {interp : Interpreter}.






End Integers.

(** ** The loop of [_genTup] *)

Section Mesh2D.

Import Np ubcMeshReaderBase.


Context {interp : Interpreter}.

(** The lines of the file, free of comments and of white space at their
    ends. *)
Variable lines : list string.
Hypothesis lines_no_comment : Forall (fun s => split_first "!" s = s) lines.
Hypothesis lines_stripped : Forall (fun s => strip s = s) lines.










End Mesh2D.

(** ** The extent of a mesh *)

Section Reader.

Import Np ubcMeshReaderBase.

Context {interp : Interpreter}.

Context {F : Type}.
Implicit Types (env : Env F) (self : t).

Lemma read_first_line_header env path header :
  first_retained_line env path header ->
  read_first_line env path = Ok (Scalar header).
Proof.
  intros (raw & rest & Hread & Hret & Hmore).
  unfold read_first_line, genfromtxt_str.
  rewrite Hread. cbn. rewrite Hret.
  destruct (has_max_rows env) eqn:Hv.
  - reflexivity.
  - destruct Hmore as [Hmore | Hmore]; [discriminate |].
    destruct rest as [| l rest]; [congruence |]. reflexivity.
Qed.

Lemma ReadExtent_header env self header sizeM :
  first_retained_line env (MeshFileName self) header ->
  int_array (split header) = Ok sizeM ->
  _ReadExtent env self =
    (extent_of_size env (MeshFileName self) sizeM, set_sizeM sizeM self).
Proof.
  intros Hh Hsz. unfold _ReadExtent.
  rewrite (read_first_line_header _ _ _ Hh). run. rewrite index_0. run. rewrite Hsz. reflexivity.
Qed.

Lemma ReadExtent_header_err env self header e :
  first_retained_line env (MeshFileName self) header ->
  int_array (split header) = Err e ->
  _ReadExtent env self = (Err e, self).
Proof.
  intros Hh Hsz. unfold _ReadExtent.
  rewrite (read_first_line_header _ _ _ Hh). run. rewrite index_0. run. rewrite Hsz. reflexivity.
Qed.

(** C2: when the first retained line of the mesh file is three or more
    integers, [_ReadExtent] returns [(0, ne, 0, nn, 0, nz)] for the first
    three of them; two files with the same first retained line give the
    same result, whatever else they contain. *)
Theorem ReadExtent_3D env self env' self' header ne nn nz more :
  first_retained_line env (MeshFileName self) header ->
  first_retained_line env' (MeshFileName self') header ->
  int_array (split header) = Ok (ne :: nn :: nz :: more) ->
  fst (_ReadExtent env self) = Ok (0, ne, 0, nn, 0, nz) /\
  fst (_ReadExtent env' self') = fst (_ReadExtent env self).
Proof.
  intros Hh Hh' Hsz.
  rewrite (ReadExtent_header _ _ _ _ Hh Hsz), (ReadExtent_header _ _ _ _ Hh' Hsz).
  cbn [fst]. unfold extent_of_size.
  assert (Hlen : len (ne :: nn :: nz :: more) = 3 + len more).
  { unfold len. cbn [length]. lia. }
  assert (0 <= len more) by (unfold len; lia).
  rewrite Hlen.
  destruct (3 + len more =? 1) eqn:E1; [lia |].
  destruct (3 <=? 3 + len more) eqn:E3; [| lia].
  rewrite index_0.
  change 1 with (Z.of_nat 1). change 2 with (Z.of_nat 2).
  rewrite (index_nat (ne :: nn :: nz :: more) 1 nn eq_refl).
  rewrite (index_nat (ne :: nn :: nz :: more) 2 nz eq_refl).
  split; reflexivity.
Qed.


(** A header of two tokens, once the code has got hold of it. *)
Lemma ReadExtent_pair env self header a b :
  first_retained_line env (MeshFileName self) header ->
  split header = [a; b] ->
  fst (_ReadExtent env self) =
    Err (match int_array [a; b] with
         | Ok _ => PVGeoError "File format not recognized"
         | Err e => e
         end).
Proof.
  intros Hh Hs.
  destruct (int_array [a; b]) as [sizeM | e] eqn:Hsz.
  - rewrite <- Hs in Hsz.
    rewrite (ReadExtent_header _ _ _ _ Hh Hsz). cbn [fst].
    rewrite Hs in Hsz. unfold int_array in Hsz. cbn [map_result] in Hsz.
    destruct (to_int a) as [x |]; [| discriminate].
    destruct (to_int b) as [y |]; [| discriminate].
    cbn in Hsz. injection Hsz as <-. reflexivity.
  - rewrite <- Hs in Hsz.
    rewrite (ReadExtent_header_err _ _ _ _ Hh Hsz). reflexivity.
Qed.

Lemma ReadExtent_sets_sizeM env self ext :
  fst (_ReadExtent env self) = Ok ext ->
  exists sizeM,
    __sizeM (snd (_ReadExtent env self)) = Some sizeM /\
    (len sizeM = 1 \/ 3 <= len sizeM).
Proof.
  unfold _ReadExtent.
  destruct (mbind _ _) as [sizeM | e]; cbn [fst snd]; [| discriminate].
  intros Hext. exists sizeM. split; [reflexivity |].
  unfold extent_of_size in Hext.
  destruct (len sizeM =? 1) eqn:E1; [left; lia |].
  destruct (3 <=? len sizeM) eqn:E3; [right; lia | discriminate].
Qed.

End Reader.

(** ** The model reader *)

#[local] Set Warnings "-clear-no-such-hyp".

Section ModelReader.

Import Np ubcMeshReaderBase.

Context {F : Type}.
Variable env : Env F.

Lemma ubcModel3D_in_list (globals : list string) (l : list pyarg) :
  ubcModel3D_in globals env (PList l) =
    (out ← for_each
             (fun (out : gmap string (models F)) (f : pyarg) =>
                v ← ubcModel3D_in globals env f;
                _ ← lookup_global globals "os";
                k ← basename_of f;
                Ok (<[k := v]> out))
             l ∅;
     Ok (Dict out)).
Proof. reflexivity. Qed.

Lemma ubcModel3D_loop_with_os (all paths : list string) (acc : gmap string (models F)) :
  Forall (fun p => is_ok (genfromtxt_float env p) = true) paths ->
  (forall p, In p paths -> In p all) ->
  read_from env all acc ->
  exists d,
    for_each
      (fun (out : gmap string (models F)) (f : pyarg) =>
         v ← ubcModel3D_in with_os env f;
         _ ← lookup_global with_os "os";
         k ← basename_of f;
         Ok (<[k := v]> out))
      (map PStr paths) acc = Ok d /\
    dom d = dom acc ∪ list_to_set (map basename paths) /\
    read_from env all d.
Proof.
  revert acc. induction paths as [| p paths IH]; intros acc Hok Hsub Hacc.
  - exists acc. split; [reflexivity |]. split; [set_solver | assumption].
  - apply Forall_cons_1 in Hok as [Hp Hok].
    destruct (genfromtxt_float env p) as [data |] eqn:Hdata; [| discriminate].
    destruct (IH (<[basename p := Array data]> acc)) as (d & Hloop & Hdom & Hd).
    + assumption.
    + intros q Hq. apply Hsub. now right.
    + intros k v Hk. destruct (decide (basename p = k)) as [<- | Hne].
      * rewrite lookup_insert_eq in Hk. injection Hk as <-.
        exists p, data. repeat split; [apply Hsub; now left | assumption].
      * rewrite lookup_insert_ne in Hk by assumption. now apply Hacc.
    + exists d. split; [| split; [| assumption]].
      * cbn [map for_each ubcModel3D_in]. rewrite Hdata. cbn [except_io]. run.
        exact Hloop.
      * rewrite Hdom, dom_insert_L. cbn [map list_to_set]. set_solver.
Qed.

(** With [os] among the global names, a list of readable files gives the
    dictionary the docstring describes. *)
Lemma ubcModel3D_with_os (paths : list string) :
  Forall (fun p => is_ok (genfromtxt_float env p) = true) paths ->
  exists d,
    ubcModel3D_in with_os env (PList (map PStr paths)) = Ok (Dict d) /\
    dom d = list_to_set (map basename paths) /\
    read_from env paths d.
Proof.
  intros Hok.
  destruct (ubcModel3D_loop_with_os paths paths ∅ Hok) as (d & Hloop & Hdom & Hd).
  - auto.
  - intros k v Hk. rewrite lookup_empty in Hk. discriminate.
  - exists d. split; [| split; [| assumption]].
    + rewrite ubcModel3D_in_list, Hloop. reflexivity.
    + rewrite Hdom. set_solver.
Qed.


(** C3 (the code does not do this): for a list of file paths [ubcModel3D]
    is meant to return the dictionary from base names to arrays, as its
    docstring says. The module never imports [os], so the first element of
    a list ends the call with an exception: that of reading the element,
    or [NameError] at [os.path.basename]. No non-empty list gives a
    dictionary. For a single path the array is returned directly, with an
    I/O failure turned into [PVGeoError]. *)
Theorem ubcModel3D_list_fails (f : pyarg) (rest : list pyarg) (path : string) :
  is_ok (ubcModel3D env (PList (f :: rest))) = false /\
  ubcModel3D Demo.env (PList [PStr "/data/a.mod"]) = Err NameError /\
  ubcModel3D env (PStr path) =
    (data ← except_io (genfromtxt_float env path); Ok (Array data)).
Proof.
  split; [| split; reflexivity].
  unfold ubcModel3D. rewrite ubcModel3D_in_list. cbn [for_each]. run.
  destruct (ubcModel3D_in module_globals env f); reflexivity.
Qed.

End ModelReader.

(** ** The extent of a 2D mesh *)

Section Extent2D.

Import Np ubcMeshReaderBase.

Context {interp : Interpreter}.

Context {F : Type}.





End Extent2D.

(** ** How the decoder fails *)

Section Failures.

Import Np ubcMeshReaderBase.

Context {interp : Interpreter}.



Lemma int_raises (s : string) (e : pyexc) : int s = Err e -> e = ValueError.
Proof.
  unfold int. destruct (signed_val _); [discriminate | now intros [= <-]].
Qed.

Lemma to_int_raises (s : string) (e : pyexc) :
  to_int s = Err e -> e = ValueError \/ e = OverflowError.
Proof.
  unfold to_int. destruct (int s) as [z | e'] eqn:Hint; run.
  - destruct (int_fits z); [discriminate |]. intros [= <-]. now right.
  - intros [= <-]. left. eapply int_raises, Hint.
Qed.

Lemma int_array_raises (tokens : list string) (e : pyexc) :
  int_array tokens = Err e -> e = ValueError \/ e = OverflowError.
Proof.
  unfold int_array. induction tokens as [| token tokens IH]; cbn [map_result]; [discriminate |].
  destruct (to_int token) as [z | e'] eqn:Hto; run.
  - destruct (map_result to_int tokens); run; [discriminate |].
    intros [= <-]. now apply IH.
  - intros [= <-]. eapply to_int_raises, Hto.
Qed.







Context {F : Type}.
Implicit Types (env : Env F) (self : t).




Lemma ReadExtent_single_line env self raw :
  read_text env (MeshFileName self) = Ok raw ->
  length (retained raw) = 1%nat ->
  has_max_rows env = false ->
  fst (_ReadExtent env self) = Err IndexError.
Proof.
  intros Hread Hone Hv. unfold _ReadExtent, read_first_line, genfromtxt_str.
  rewrite Hv, Hread. run. cbn [take_rows].
  destruct (retained raw) as [| l0 [| ? ?]]; try discriminate. reflexivity.
Qed.



(** C5, as the code has it: when the first retained line of the mesh file
    has exactly two tokens, [_ReadExtent] returns no extent. It raises
    [PVGeoError('File format not recognized')] when both tokens convert to
    integers, and the error of the conversion, [ValueError] or
    [OverflowError], when one of them does not: the header is converted
    before the dialect is tested. Where the library has no [max_rows], a
    file without a second retained line raises [IndexError] before that. *)
Theorem ReadExtent_two_tokens env self (raw : list string) (header : string)
    (rest : list string) (a b : string) :
  read_text env (MeshFileName self) = Ok raw ->
  retained raw = header :: rest ->
  split header = [a; b] ->
  fst (_ReadExtent env self) =
    Err (if negb (has_max_rows env) && Nat.eqb (length rest) 0
         then IndexError
         else match int_array [a; b] with
              | Ok _ => PVGeoError "File format not recognized"
              | Err e => e
              end) /\
  (forall e, int_array [a; b] = Err e -> e = ValueError \/ e = OverflowError).
Proof.
  intros Hread Hret Hs. split; [| apply int_array_raises].
  destruct (has_max_rows env) eqn:Hv; cbn [negb andb].
  - apply (ReadExtent_pair env self header a b); [| exact Hs].
    exists raw, rest. repeat split; [assumption.. |]. now left.
  - destruct rest as [| l rest]; cbn [length Nat.eqb].
    + apply (ReadExtent_single_line env self raw Hread); [| exact Hv].
      now rewrite Hret.
    + apply (ReadExtent_pair env self header a b); [| exact Hs].
      exists raw, (l :: rest). repeat split; [assumption.. |]. now right.
Qed.


End Failures.

(** ** The dimension queries *)

Section Queries.

Import Np ubcMeshReaderBase More.

Context {interp : Interpreter} {F : Type}.
Implicit Types (env : Env F) (self : t).

Lemma ReadExtent_header_size env self :
  _ReadExtent env self =
    match header_size env (MeshFileName self) with
    | Ok sizeM => (extent_of_size env (MeshFileName self) sizeM, set_sizeM sizeM self)
    | Err e => (Err e, self)
    end.
Proof. reflexivity. Qed.

Lemma after_call_state (path : string) self (c : call F) :
  MeshFileName self = path ->
  MeshFileName (after_call self c) = path /\
  __sizeM (after_call self c) = header_step path (__sizeM self) c.
Proof.
  intros <-. destruct c as [env | flag | name]; cbn [after_call header_step].
  - rewrite ReadExtent_header_size. destruct (header_size _ _); split; reflexivity.
  - unfold SetUseExtensionAsName. destruct (negb _); split; reflexivity.
  - unfold SetDataName. destruct (String.eqb name ""); [split; reflexivity |].
    destruct (negb _); split; reflexivity.
Qed.

Lemma after_calls_state (path : string) (cs : list (call F)) self :
  MeshFileName self = path ->
  MeshFileName (after_calls cs self) = path /\
  __sizeM (after_calls cs self) = fold_left (header_step path) cs (__sizeM self).
Proof.
  unfold after_calls. revert self.
  induction cs as [| c cs IH]; intros self Hpath; cbn [fold_left].
  - now split.
  - destruct (after_call_state path self c Hpath) as [Hpath' Hsize].
    rewrite <- Hsize. now apply IH.
Qed.

Lemma header_step_none (path : string) (cs : list (call F)) (seen : option (list Z)) :
  fold_left (header_step path) cs seen = None <->
  seen = None /\ existsb (converts path) cs = false.
Proof.
  revert seen. induction cs as [| c cs IH]; intros seen; cbn [fold_left existsb].
  - tauto.
  - rewrite IH, orb_false_iff.
    destruct c as [env | flag | name]; cbn [header_step converts]; [| tauto | tauto].
    destruct (header_size env path); cbn [is_ok]; intuition congruence.
Qed.

(** C9, as the code has it: [Is3D()] and [Is2D()] raise [AttributeError]
    as long as no call of [_ReadExtent] has converted the header of the
    mesh file, whatever calls of [_ReadExtent] that fail before that and of
    the setters of the name were made. Once a call has converted a header,
    both return a boolean, computed from the number of integers of the
    header converted last, also when that call went on to raise. After a
    call that returns an extent one is the negation of the other. *)
Theorem Is3D_Is2D_after_ReadExtent env (path : string) (cs : list (call F)) :
  let self := after_calls cs (__init__ path) in
  (existsb (converts path) cs = false <-> last_header path cs = None) /\
  Is3D self = match last_header path cs with
              | Some sizeM => Ok (3 <=? len sizeM)
              | None => Err AttributeError
              end /\
  Is2D self = match last_header path cs with
              | Some sizeM => Ok (len sizeM =? 1)
              | None => Err AttributeError
              end /\
  (forall ext, fst (_ReadExtent env self) = Ok ext ->
   exists b, Is3D (snd (_ReadExtent env self)) = Ok b /\
             Is2D (snd (_ReadExtent env self)) = Ok (negb b)).
Proof.
  cbn zeta.
  destruct (after_calls_state path cs (__init__ path) eq_refl) as [_ Hsize].
  change (fold_left (header_step path) cs (__sizeM (__init__ path)))
    with (last_header path cs) in Hsize.
  split.
  { unfold last_header. rewrite header_step_none. tauto. }
  split; [| split].
  - unfold Is3D, sizeM_shape0. rewrite Hsize.
    destruct (last_header path cs); reflexivity.
  - unfold Is2D, sizeM_shape0. rewrite Hsize.
    destruct (last_header path cs); reflexivity.
  - intros ext Hext.
    destruct (ReadExtent_sets_sizeM _ _ _ Hext) as (sizeM & Hs & Hlen).
    unfold Is3D, Is2D, sizeM_shape0. rewrite Hs. run.
    exists (3 <=? len sizeM). split; [reflexivity |].
    f_equal. destruct (3 <=? len sizeM) eqn:E3, (len sizeM =? 1) eqn:E1; cbn; try reflexivity; lia.
Qed.

End Queries.

(** ** The appender *)

Section Appender.

Import ModelAppenderBase.

Context {Time Model Grid : Type}.
Implicit Types (self : t Time Model).

Lemma not_in_false (s : string) (names : list string) :
  In s names -> not_in s names = false.
Proof.
  intros Hin. unfold not_in. apply negb_false_iff, existsb_exists.
  exists s. split; [assumption | apply String.eqb_refl].
Qed.

Lemma AddModelFileName_present_fold self (l : list pyarg) :
  all_present l (_modelFileNames self) = true ->
  fold_left (fun self f => AddModelFileName f self) l self = self.
Proof.
  induction l as [| f l IH]; intros Hall; [reflexivity |].
  cbn [all_present forallb] in Hall. apply andb_true_iff in Hall as [Hf Hl].
  destruct f as [| s | l']; try discriminate.
  cbn [fold_left AddModelFileName].
  apply negb_true_iff in Hf. rewrite Hf. apply IH, Hl.
Qed.

(** C6, as the code has it: adding a file name that is already in the list
    as a single string leaves the object as it is. Adding a list of names
    that are all in the list leaves the list of names as it is, and sets
    [__needToRead]: [Modified()] is called after the loop over a list. *)
Theorem AddModelFileName_present self (s : string) (l : list pyarg) :
  In s (_modelFileNames self) ->
  all_present l (_modelFileNames self) = true ->
  AddModelFileName (PStr s) self = self /\
  _modelFileNames (AddModelFileName (PList l) self) = _modelFileNames self /\
  __needToRead (AddModelFileName (PList l) self) = true.
Proof.
  intros Hin Hall. split.
  - cbn [AddModelFileName]. rewrite (not_in_false _ _ Hin). reflexivity.
  - cbn [AddModelFileName]. rewrite (AddModelFileName_present_fold _ _ Hall).
    split; reflexivity.
Qed.

(** C8, as the code has it: [AddModelFileName] either sets [__needToRead]
    or leaves the object as it is, so every change of the list of names
    sets it; [ClearModels] and [Modified(readAgain=True)] set it;
    [Modified(readAgain=False)], [SetUseExtensionAsName] and [SetDataName]
    leave it as it is. *)
Theorem needToRead_transitions self (fname : pyarg) (flag : bool) (name : string) :
  (__needToRead (AddModelFileName fname self) = true \/
   AddModelFileName fname self = self) /\
  __needToRead (ClearModels self) = true /\
  __needToRead (Modified true self) = true /\
  __needToRead (Modified false self) = __needToRead self /\
  __needToRead (SetUseExtensionAsName flag self) = __needToRead self /\
  __needToRead (SetDataName name self) = __needToRead self.
Proof.
  repeat split.
  - destruct fname as [| s | l]; cbn [AddModelFileName].
    + right; reflexivity.
    + destruct (not_in s (_modelFileNames self)); [left | right]; reflexivity.
    + left; reflexivity.
  - unfold SetUseExtensionAsName. destruct (negb _); reflexivity.
  - unfold SetDataName. destruct (String.eqb name ""); [reflexivity |].
    destruct (negb _); reflexivity.
Qed.

(** C7, as the code has it: [RequestData] first runs the read step, when
    [__needToRead] is set, and an exception of that step ends the request.
    When there is no read step or it returns, and the requested index is at
    least the number of models then loaded, [RequestData] returns [1], the
    output grid is the copy of the input grid and [_PlaceOnMesh] is not
    consulted. *)
Theorem RequestData_beyond_models
    (_ReadUpFront : t Time Model -> result unit * t Time Model)
    (_PlaceOnMesh : Z -> t Time Model * Grid -> result unit * (t Time Model * Grid))
    (pdi output : Grid) (i : Z) self :
  let read := if __needToRead self then _ReadUpFront self else (Ok tt, self) in
  (forall e, fst read = Err e ->
     RequestData _ReadUpFront _PlaceOnMesh pdi output i self =
       (Err e, (snd read, pdi))) /\
  (fst read = Ok tt ->
   len (_models (snd read)) <= i ->
   RequestData _ReadUpFront _PlaceOnMesh pdi output i self = (Ok 1, (snd read, pdi))).
Proof.
  cbn zeta. unfold RequestData.
  destruct (if __needToRead self then _ReadUpFront self else (Ok tt, self))
    as [r self'].
  cbn [fst snd]. split.
  - intros e ->. reflexivity.
  - intros -> Hi.
    destruct (i <? len (_models self')) eqn:E; [lia | reflexivity].
Qed.

(** C10: with the extension used as name and no model file,
    [GetModelFileNames(idx=0)] returns the empty list and [GetDataName()]
    raises [AttributeError]. *)
Theorem GetDataName_without_models self :
  __useExtName self = true ->
  _modelFileNames self = [] ->
  GetModelFileNames (Some 0) self = Ok (Names []) /\
  GetDataName self = Err AttributeError.
Proof.
  intros Hext Hnames.
  assert (Hget : GetModelFileNames (Some 0) self = Ok (Names [])).
  { unfold GetModelFileNames, HasModels. rewrite Hnames. reflexivity. }
  split; [exact Hget |].
  unfold GetDataName. rewrite Hext, Hget. reflexivity.
Qed.

End Appender.

(** ** The statements at concrete inputs *)

Section ReaderInstances.

Import Np ubcMeshReaderBase.

#[local] Existing Instance Demo.interpreter.


(** The first retained lines of three files of the table. *)
Lemma header_msh : first_retained_line Demo.env "header.msh" "4 5 6".
Proof. exists ["4 5 6"], []. repeat split. now left. Qed.

Lemma mesh3d_msh : first_retained_line Demo.env "mesh3d.msh" "4 5 6".
Proof. exists Demo.mesh3D, (tl (retained Demo.mesh3D)). repeat split. now left. Qed.

Lemma two_msh : first_retained_line Demo.env "two.msh" "4 5".
Proof. exists ["4 5"; "0.0 0.0"], ["0.0 0.0"]. repeat split. now left. Qed.

(** The header line ["4 5 6"], alone in a file and at the head of a 3D mesh. *)
Lemma ReadExtent_3D_witness :
  first_retained_line Demo.env "header.msh" "4 5 6" /\
  first_retained_line Demo.env "mesh3d.msh" "4 5 6" /\
  int_array (split "4 5 6") = Ok [4; 5; 6] /\
  fst (_ReadExtent Demo.env (__init__ "header.msh")) = Ok (0, 4, 0, 5, 0, 6) /\
  fst (_ReadExtent Demo.env (__init__ "mesh3d.msh")) =
    fst (_ReadExtent Demo.env (__init__ "header.msh")).
Proof.
  split; [exact header_msh |]. split; [exact mesh3d_msh |]. split; [reflexivity |].
  exact (ReadExtent_3D Demo.env (__init__ "header.msh") Demo.env (__init__ "mesh3d.msh")
           "4 5 6" 4 5 6 [] header_msh mesh3d_msh eq_refl).
Defined.

(** C5 does not hold as stated: a header of two words makes the extent
    computation raise [ValueError], the error of the conversion of the
    header, which is no [PVGeoError]. *)
Lemma two_words_ValueError :
  read_text Demo.env "words.msh" = Ok ["north east"; "0.0 0.0"] /\
  split "north east" = ["north"; "east"] /\
  fst (_ReadExtent Demo.env (__init__ "words.msh")) = Err ValueError /\
  (forall msg,
     fst (_ReadExtent Demo.env (__init__ "words.msh")) <> Err (PVGeoError msg)).
Proof.
  repeat split; discriminate.
Qed.

(** A header of two integers, a header of two words, and a header of two
    integers alone in its file, read by a library without [max_rows]. *)
Lemma ReadExtent_two_tokens_witness :
  (read_text Demo.env "two.msh" = Ok ["4 5"; "0.0 0.0"] /\
   retained ["4 5"; "0.0 0.0"] = "4 5" :: ["0.0 0.0"] /\
   split "4 5" = ["4"; "5"] /\
   fst (_ReadExtent Demo.env (__init__ "two.msh")) =
     Err (PVGeoError "File format not recognized")) /\
  (read_text Demo.env "words.msh" = Ok ["north east"; "0.0 0.0"] /\
   retained ["north east"; "0.0 0.0"] = "north east" :: ["0.0 0.0"] /\
   split "north east" = ["north"; "east"] /\
   fst (_ReadExtent Demo.env (__init__ "words.msh")) = Err ValueError) /\
  (read_text More.legacy_pair "pair.msh" = Ok ["4 5"] /\
   retained ["4 5"] = "4 5" :: [] /\
   split "4 5" = ["4"; "5"] /\
   fst (_ReadExtent More.legacy_pair (__init__ "pair.msh")) = Err IndexError).
Proof.
  split; [| split].
  - split; [reflexivity |]. split; [reflexivity |]. split; [reflexivity |].
    exact (proj1 (ReadExtent_two_tokens Demo.env (__init__ "two.msh")
                    ["4 5"; "0.0 0.0"] "4 5" ["0.0 0.0"] "4" "5"
                    eq_refl eq_refl eq_refl)).
  - split; [reflexivity |]. split; [reflexivity |]. split; [reflexivity |].
    exact (proj1 (ReadExtent_two_tokens Demo.env (__init__ "words.msh")
                    ["north east"; "0.0 0.0"] "north east" ["0.0 0.0"] "north" "east"
                    eq_refl eq_refl eq_refl)).
  - split; [reflexivity |]. split; [reflexivity |]. split; [reflexivity |].
    exact (proj1 (ReadExtent_two_tokens More.legacy_pair (__init__ "pair.msh")
                    ["4 5"] "4 5" [] "4" "5" eq_refl eq_refl eq_refl)).
Defined.



(** C9 does not hold as stated: no extent computation has succeeded on the
    reader on which [_ReadExtent] has rejected a header of two integers,
    and both queries return a boolean. *)
Lemma queries_after_failed_ReadExtent :
  fst (_ReadExtent Demo.env (__init__ "two.msh")) =
    Err (PVGeoError "File format not recognized") /\
  Is3D (snd (_ReadExtent Demo.env (__init__ "two.msh"))) = Ok false /\
  Is2D (snd (_ReadExtent Demo.env (__init__ "two.msh"))) = Ok false.
Proof.
  repeat split.
Qed.

(** A new reader; a reader after a new name and a call that fails on a
    header of two words; a reader after a call that rejects a header of two
    integers; a reader after the extent of the 3D mesh is computed, once
    and twice. *)
Lemma Is3D_Is2D_after_ReadExtent_witness :
  (Is3D (__init__ "mesh3d.msh") = Err AttributeError /\
   Is2D (__init__ "mesh3d.msh") = Err AttributeError) /\
  (existsb (More.converts "words.msh")
     [More.DataName "Resistivity"; More.ReadExtent Demo.env] = false /\
   Is3D (More.after_calls [More.DataName "Resistivity"; More.ReadExtent Demo.env]
           (__init__ "words.msh")) = Err AttributeError /\
   Is2D (More.after_calls [More.DataName "Resistivity"; More.ReadExtent Demo.env]
           (__init__ "words.msh")) = Err AttributeError) /\
  (Is3D (More.after_calls [More.ReadExtent Demo.env] (__init__ "two.msh")) = Ok false /\
   Is2D (More.after_calls [More.ReadExtent Demo.env] (__init__ "two.msh")) = Ok false) /\
  (Is3D (More.after_calls [More.ReadExtent Demo.env] (__init__ "mesh3d.msh")) = Ok true /\
   Is2D (More.after_calls [More.ReadExtent Demo.env] (__init__ "mesh3d.msh")) = Ok false /\
   fst (_ReadExtent Demo.env
          (More.after_calls [More.ReadExtent Demo.env] (__init__ "mesh3d.msh"))) =
     Ok (0, 4, 0, 5, 0, 6) /\
   exists b,
     Is3D (snd (_ReadExtent Demo.env
                  (More.after_calls [More.ReadExtent Demo.env] (__init__ "mesh3d.msh")))) =
       Ok b /\
     Is2D (snd (_ReadExtent Demo.env
                  (More.after_calls [More.ReadExtent Demo.env] (__init__ "mesh3d.msh")))) =
       Ok (negb b)).
Proof.
  split; [| split; [| split]].
  - destruct (Is3D_Is2D_after_ReadExtent Demo.env "mesh3d.msh" [])
      as (_ & H3 & H2 & _).
    split; [exact H3 | exact H2].
  - destruct (Is3D_Is2D_after_ReadExtent Demo.env "words.msh"
                [More.DataName "Resistivity"; More.ReadExtent Demo.env])
      as (Hnone & H3 & H2 & _).
    split; [reflexivity |].
    rewrite (proj1 Hnone eq_refl) in H3, H2.
    split; [exact H3 | exact H2].
  - destruct (Is3D_Is2D_after_ReadExtent Demo.env "two.msh" [More.ReadExtent Demo.env])
      as (_ & H3 & H2 & _).
    split; [exact H3 | exact H2].
  - destruct (Is3D_Is2D_after_ReadExtent Demo.env "mesh3d.msh" [More.ReadExtent Demo.env])
      as (_ & H3 & H2 & Hafter).
    split; [exact H3 |]. split; [exact H2 |]. split; [reflexivity |].
    apply (Hafter (0, 4, 0, 5, 0, 6)). reflexivity.
Defined.

End ReaderInstances.

Section AppenderInstances.

Import ModelAppenderBase.

(** C6 does not hold as stated: after the models are read, adding a list
    that holds a name already present leaves the names as they are and
    sets [__needToRead]. *)
Lemma AddModelFileName_list_marks_stale :
  In "run/t1.mod" (_modelFileNames Demo.loaded) /\
  __needToRead Demo.loaded = false /\
  _modelFileNames (AddModelFileName (PList [PStr "run/t1.mod"]) Demo.loaded) =
    _modelFileNames Demo.loaded /\
  __needToRead (AddModelFileName (PList [PStr "run/t1.mod"]) Demo.loaded) = true.
Proof.
  split; [vm_compute; right; left; reflexivity |].
  split; [vm_compute; reflexivity |].
  split; vm_compute; reflexivity.
Qed.

(** Names that the loaded appender already has, added once more. *)
Lemma AddModelFileName_present_witness :
  In "run/t1.mod" (_modelFileNames Demo.loaded) /\
  all_present [PStr "run/t1.mod"; PStr "run/t0.mod"] (_modelFileNames Demo.loaded) = true /\
  AddModelFileName (PStr "run/t1.mod") Demo.loaded = Demo.loaded /\
  _modelFileNames
    (AddModelFileName (PList [PStr "run/t1.mod"; PStr "run/t0.mod"]) Demo.loaded) =
    _modelFileNames Demo.loaded /\
  __needToRead
    (AddModelFileName (PList [PStr "run/t1.mod"; PStr "run/t0.mod"]) Demo.loaded) = true.
Proof.
  assert (Hin : In "run/t1.mod" (_modelFileNames Demo.loaded)).
  { vm_compute. right. left. reflexivity. }
  split; [exact Hin |]. split; [reflexivity |].
  exact (AddModelFileName_present Demo.loaded "run/t1.mod"
           [PStr "run/t1.mod"; PStr "run/t0.mod"] Hin eq_refl).
Defined.

(** C8 does not hold as stated: after the models are read, changing the
    naming flag or the data name leaves [__needToRead] false. *)
Lemma naming_keeps_needToRead :
  __needToRead Demo.loaded = false /\
  __useExtName Demo.loaded = true /\
  __useExtName (SetUseExtensionAsName false Demo.loaded) = false /\
  __needToRead (SetUseExtensionAsName false Demo.loaded) = false /\
  __dataname (SetDataName "Resistivity" Demo.loaded) = "Resistivity" /\
  __needToRead (SetDataName "Resistivity" Demo.loaded) = false.
Proof.
  repeat split; vm_compute; reflexivity.
Qed.

(** C7 does not hold as stated: a new appender has no model and its read
    flag is set, and with the read step of the class itself a request for
    time step 5 raises [NameError]. *)
Lemma RequestData_read_step_raises :
  __needToRead Demo.fresh = true /\
  len (_models Demo.fresh) = 0 /\
  RequestData More.base_ReadUpFront More.base_PlaceOnMesh Demo.input_grid [] 5 Demo.fresh =
    (Err NameError, (Demo.fresh, Demo.input_grid)).
Proof.
  repeat split; vm_compute; reflexivity.
Qed.

(** Time step 5 is requested of an appender with three models that needs no
    read, of an appender that reads its one model first, and of the new
    appender with the read step of the class itself. *)
Lemma RequestData_beyond_models_witness :
  (__needToRead Demo.loaded = false /\
   len (_models Demo.loaded) = 3 /\
   RequestData Demo._ReadUpFront Demo._PlaceOnMesh Demo.input_grid [] 5 Demo.loaded =
     (Ok 1, (Demo.loaded, Demo.input_grid))) /\
  (__needToRead More.pending = true /\
   fst (Demo._ReadUpFront More.pending) = Ok tt /\
   len (_models (snd (Demo._ReadUpFront More.pending))) = 1 /\
   RequestData Demo._ReadUpFront Demo._PlaceOnMesh Demo.input_grid [] 5 More.pending =
     (Ok 1, (snd (Demo._ReadUpFront More.pending), Demo.input_grid))) /\
  (__needToRead Demo.fresh = true /\
   fst (More.base_ReadUpFront Demo.fresh) = Err NameError /\
   RequestData More.base_ReadUpFront More.base_PlaceOnMesh Demo.input_grid [] 5 Demo.fresh =
     (Err NameError, (Demo.fresh, Demo.input_grid))).
Proof.
  split; [| split].
  - pose proof (proj2 (RequestData_beyond_models Demo._ReadUpFront Demo._PlaceOnMesh
                         Demo.input_grid [] 5 Demo.loaded)) as H.
    vm_compute in H. vm_compute.
    split; [reflexivity |]. split; [reflexivity |].
    apply H; [reflexivity | discriminate].
  - pose proof (proj2 (RequestData_beyond_models Demo._ReadUpFront Demo._PlaceOnMesh
                         Demo.input_grid [] 5 More.pending)) as H.
    vm_compute in H. vm_compute.
    split; [reflexivity |]. split; [reflexivity |]. split; [reflexivity |].
    apply H; [reflexivity | discriminate].
  - pose proof (proj1 (RequestData_beyond_models More.base_ReadUpFront
                         More.base_PlaceOnMesh Demo.input_grid [] 5 Demo.fresh)) as H.
    vm_compute in H. vm_compute.
    split; [reflexivity |]. split; [reflexivity |].
    apply (H NameError). reflexivity.
Defined.

(** The data name of an appender that was given no file. *)
Lemma GetDataName_without_models_witness :
  __useExtName Demo.fresh = true /\
  _modelFileNames Demo.fresh = [] /\
  GetModelFileNames (Some 0) Demo.fresh = Ok (Names []) /\
  GetDataName Demo.fresh = Err AttributeError.
Proof.
  split; [reflexivity |]. split; [reflexivity |].
  exact (GetDataName_without_models Demo.fresh eq_refl eq_refl).
Defined.

End AppenderInstances.

(** * Further properties *)

(** ** The list of model files *)

(** Induction over the arguments, lists inside lists included. *)
Lemma pyarg_nested_ind (P : pyarg -> Prop) :
  P PNone ->
  (forall s, P (PStr s)) ->
  (forall l, List.Forall P l -> P (PList l)) ->
  forall fname, P fname.
Proof.
  intros HNone HStr HList. fix IH 1. intros [| s | l].
  - exact HNone.
  - apply HStr.
  - apply HList. induction l as [| f l IHl]; constructor; [apply IH | exact IHl].
Qed.

Section FileList.

Import ModelAppenderBase More.

Context {Time Model : Type}.
Implicit Types (self : t Time Model).

Lemma not_in_spec (s : string) (names : list string) :
  not_in s names = true <-> ~ In s names.
Proof.
  unfold not_in. rewrite negb_true_iff, <- not_true_iff_false, existsb_exists.
  split; intros H Hin; apply H.
  - exists s. split; [assumption | apply String.eqb_refl].
  - destruct Hin as (x & Hx & Heq). apply String.eqb_eq in Heq. now subst x.
Qed.

Lemma add_new_app (names a b : list string) :
  add_new names (a ++ b) = add_new (add_new names a) b.
Proof. unfold add_new. apply fold_left_app. Qed.

Lemma add_new_cons (names : list string) (s : string) (new : list string) :
  add_new names (s :: new) =
    add_new (if not_in s names then (names ++ [s])%list else names) new.
Proof. reflexivity. Qed.

Lemma AddModelFileName_names_fold (l : list pyarg) :
  List.Forall (fun f => forall self,
            _modelFileNames (AddModelFileName f self) =
              add_new (_modelFileNames self) (strings_of f)) l ->
  forall self,
    _modelFileNames (fold_left (fun self f => AddModelFileName f self) l self) =
      add_new (_modelFileNames self) (flat_map strings_of l).
Proof.
  induction 1 as [| f l Hf _ IH]; intros self; [reflexivity |].
  cbn [fold_left flat_map]. rewrite IH, Hf, add_new_app. reflexivity.
Qed.

Lemma names_after_add (fname : pyarg) self :
  _modelFileNames (AddModelFileName fname self) =
    add_new (_modelFileNames self) (strings_of fname).
Proof.
  revert self. induction fname as [| s | l IH] using pyarg_nested_ind; intros self.
  - reflexivity.
  - cbn [AddModelFileName strings_of]. rewrite add_new_cons.
    destruct (not_in s (_modelFileNames self)); reflexivity.
  - cbn [AddModelFileName strings_of].
    exact (AddModelFileName_names_fold l IH self).
Qed.

Lemma add_new_prefix (new names : list string) :
  exists more,
    add_new names new = (names ++ more)%list /\
    (forall s, In s more -> In s new /\ ~ In s names) /\
    (forall s, In s new -> In s (names ++ more)%list) /\
    (NoDup names -> NoDup (names ++ more)%list).
Proof.
  revert names. induction new as [| s new IH]; intros names.
  - exists []. rewrite app_nil_r. repeat split; try easy.
  - rewrite add_new_cons. destruct (not_in s names) eqn:Hs.
    + apply not_in_spec in Hs.
      destruct (IH (names ++ [s])%list) as (more & Heq & Hnew & Hall & Hnd).
      exists (s :: more). rewrite Heq, <- app_assoc. cbn [app].
      split; [reflexivity |]. split; [| split].
      * intros x [<- | Hx]; [split; [now left | assumption] |].
        destruct (Hnew x Hx) as [Hin Hnot]. split; [now right |].
        intros Hx'. apply Hnot, in_or_app. now left.
      * intros x [<- | Hx].
        -- apply in_or_app. right. now left.
        -- specialize (Hall x Hx). rewrite <- app_assoc in Hall. exact Hall.
      * intros Hnames. rewrite <- app_assoc in Hnd. apply Hnd.
        apply NoDup_app. split; [assumption |]. split; [| apply NoDup_singleton].
        intros x Hx Hxs. apply list_elem_of_In in Hx.
        apply list_elem_of_singleton in Hxs. now subst x.
    + assert (Hin : In s names).
      { destruct (in_dec string_dec s names) as [H | H]; [exact H |].
        apply not_in_spec in H. congruence. }
      destruct (IH names) as (more & Heq & Hnew & Hall & Hnd).
      exists more. split; [exact Heq |]. split; [| split; [| exact Hnd]].
      * intros x Hx. destruct (Hnew x Hx). split; [now right | assumption].
      * intros x [<- | Hx]; [apply in_or_app; now left | now apply Hall].
Qed.


Lemma only_files_touched_refl self : only_files_touched self self.
Proof. unfold only_files_touched. repeat split; auto. Qed.

Lemma only_files_touched_trans self1 self2 self3 :
  only_files_touched self1 self2 -> only_files_touched self2 self3 ->
  only_files_touched self1 self3.
Proof.
  unfold only_files_touched.
  intros (A1 & A2 & A3 & A4 & A5 & A6 & A7 & A8 & A9)
         (B1 & B2 & B3 & B4 & B5 & B6 & B7 & B8 & B9).
  repeat split; try congruence; [lia | auto].
Qed.

Lemma only_files_touched_Modified self :
  only_files_touched self (Modified true self).
Proof. unfold only_files_touched. cbn. repeat split; auto. Qed.

Lemma frame_after_add (fname : pyarg) self :
  only_files_touched self (AddModelFileName fname self).
Proof.
  revert self. induction fname as [| s | l IH] using pyarg_nested_ind; intros self.
  - apply only_files_touched_refl.
  - cbn [AddModelFileName]. destruct (not_in s (_modelFileNames self)).
    + unfold only_files_touched. cbn. repeat split; auto.
    + apply only_files_touched_refl.
  - cbn [AddModelFileName].
    eapply only_files_touched_trans; [| apply only_files_touched_Modified].
    revert self. induction IH as [| f l Hf _ IHl]; intros self; cbn [fold_left].
    + apply only_files_touched_refl.
    + eapply only_files_touched_trans; [apply Hf | apply IHl].
Qed.

(** X1: the list of file names after [AddModelFileName] is the list before,
    followed by the strings of the argument that were not in it, each one
    once and in the order of first occurrence; [None] and nesting of lists
    make no difference. *)
Theorem AddModelFileName_names (fname : pyarg) self :
  _modelFileNames (AddModelFileName fname self) =
    add_new (_modelFileNames self) (strings_of fname).
Proof. apply names_after_add. Qed.

(** X2: [AddModelFileName] keeps the file names free of duplicates. *)
Theorem AddModelFileName_NoDup (fname : pyarg) self :
  NoDup (_modelFileNames self) ->
  NoDup (_modelFileNames (AddModelFileName fname self)).
Proof.
  intros Hnd. rewrite names_after_add.
  destruct (add_new_prefix (strings_of fname) (_modelFileNames self))
    as (more & -> & _ & _ & H). now apply H.
Qed.

(** X3: [AddModelFileName] only appends: the names that were there stay, in
    their order, and what follows them are strings of the argument that
    were not there. The loaded models, the data name, the naming flag and
    the time steps are as before, and the read flag is not cleared. *)
Theorem AddModelFileName_appends (fname : pyarg) self :
  (exists more,
     _modelFileNames (AddModelFileName fname self) =
       (_modelFileNames self ++ more)%list /\
     List.Forall (fun s => In s (strings_of fname) /\
                           not_in s (_modelFileNames self) = true) more) /\
  only_files_touched self (AddModelFileName fname self).
Proof.
  split; [| apply frame_after_add].
  rewrite names_after_add.
  destruct (add_new_prefix (strings_of fname) (_modelFileNames self))
    as (more & Heq & Hnew & _).
  exists more. split; [exact Heq |].
  apply List.Forall_forall. intros s Hs. destruct (Hnew s Hs) as [Hin Hnot].
  split; [exact Hin | now apply not_in_spec].
Qed.

(** X4: after [AddModelFileName], every string of the argument is among the
    file names. *)
Theorem AddModelFileName_all_present (fname : pyarg) self (s : string) :
  In s (strings_of fname) ->
  In s (_modelFileNames (AddModelFileName fname self)).
Proof.
  intros Hs. rewrite names_after_add.
  destruct (add_new_prefix (strings_of fname) (_modelFileNames self))
    as (more & -> & _ & Hall & _). now apply Hall.
Qed.

Lemma index_last {A : Type} (xs : list A) (x : A) :
  index (xs ++ [x]) (-1) = Ok x /\ index (xs ++ [x]) (len xs) = Ok x.
Proof.
  assert (Hnth : nth_error (xs ++ [x]) (length xs) = Some x).
  { rewrite nth_error_app2 by lia. now rewrite Nat.sub_diag. }
  split; [| now apply index_nat].
  unfold index. rewrite length_app. cbn [length Z.ltb Z.compare].
  replace (-1 + Z.of_nat (length xs + 1)) with (Z.of_nat (length xs)) by lia.
  rewrite (proj2 (Z.leb_le 0 _)) by lia.
  rewrite (proj2 (Z.ltb_lt _ _)) by lia.
  cbn [andb]. now rewrite Nat2Z.id, Hnth.
Qed.

(** X5: a file name that is new becomes the last one: it is what
    [GetModelFileNames] returns for the index [-1], and for the index that
    was the length of the list. *)
Theorem AddModelFileName_then_last (s : string) self :
  ~ In s (_modelFileNames self) ->
  GetModelFileNames (Some (-1)) (AddModelFileName (PStr s) self) = Ok (Name s) /\
  GetModelFileNames (Some (len (_modelFileNames self)))
    (AddModelFileName (PStr s) self) = Ok (Name s).
Proof.
  intros Hs. apply not_in_spec in Hs.
  cbn [AddModelFileName]. rewrite Hs.
  unfold GetModelFileNames, HasModels. cbn [Modified set_needToRead set_files _modelFileNames].
  assert (Hlen : (0 <? len (_modelFileNames self ++ [s])) = true).
  { unfold len. rewrite length_app. cbn [length]. apply Z.ltb_lt. lia. }
  rewrite Hlen. cbn [negb].
  destruct (index_last (_modelFileNames self) s) as [-> ->]. split; reflexivity.
Qed.

(** X6: what [GetModelFileNames(idx)] returns. Without a file name it is the
    (empty) list, whatever the index. With file names, an index from [0]
    up to the length gives the name at that place, an index from minus the
    length up to [-1] the name at that place from the end, and any other
    index raises [IndexError]. *)
Theorem GetModelFileNames_index (i : Z) self :
  let names := _modelFileNames self in
  GetModelFileNames (Some i) self =
    if (len names =? 0) then Ok (Names names)
    else if (0 <=? i) && (i <? len names)
         then Ok (Name (nth (Z.to_nat i) names ""))
    else if (- len names <=? i) && (i <? 0)
         then Ok (Name (nth (Z.to_nat (len names + i)) names ""))
    else Err IndexError.
Proof.
  cbn zeta. unfold GetModelFileNames, HasModels.
  set (names := _modelFileNames self).
  assert (Hnth : forall k, (k < length names)%nat ->
                            nth_error names k = Some (nth k names "")).
  { intros k Hk. now apply nth_error_nth'. }
  assert (0 <= len names) by (unfold len; lia).
  destruct (len names =? 0) eqn:E0.
  - destruct (0 <? len names) eqn:E; [lia | reflexivity].
  - destruct (0 <? len names) eqn:E; [| lia]. cbn [negb].
    unfold index. fold (len names).
    destruct (i <? 0) eqn:Eneg.
    + destruct (0 <=? i) eqn:Ei; [lia |]. cbn [andb].
      destruct (- len names <=? i) eqn:Elow; cbn [andb].
      * destruct (0 <=? i + len names) eqn:E1; [| lia].
        destruct (i + len names <? len names) eqn:E2; [| lia]. cbn [andb].
        rewrite Hnth by (unfold len in *; lia). run.
        now rewrite Z.add_comm.
      * destruct (0 <=? i + len names) eqn:E1; [lia | reflexivity].
    + destruct (0 <=? i) eqn:Ei; [| lia]. cbn [andb].
      destruct (i <? len names) eqn:Ehigh.
      * rewrite Hnth by (unfold len in *; lia). reflexivity.
      * destruct (- len names <=? i) eqn:Elow; reflexivity.
Qed.

End FileList.

(** ** The data name *)

Section Extension.

Lemma split_at_nonempty (d : ascii) (s cur : string) : split_at d s cur <> [].
Proof.
  revert cur. induction s as [| c s IH]; intros cur; cbn; [discriminate |].
  destruct (Ascii.eqb c d); [discriminate | apply IH].
Qed.

Lemma last_cons_nonempty {A : Type} (a d : A) (l : list A) :
  l <> [] -> List.last (a :: l) d = List.last l d.
Proof. destruct l; [congruence | reflexivity]. Qed.

(** The last piece of [s.split(d)]: it is free of [d], and it is all of [s]
    when [s] is free of [d], and what follows the last [d] otherwise. *)
Lemma split_at_last (d : ascii) (s cur : string) :
  has_char d cur = false ->
  let e := List.last (split_at d s cur) "" in
  has_char d e = false /\
  ((has_char d s = false /\ e = cur ++ s) \/
   exists stem, cur ++ s = stem ++ String d e).
Proof.
  revert cur. induction s as [| c s IH]; intros cur Hcur; cbn zeta.
  - cbn. split; [assumption |]. left. split; [reflexivity |].
    now rewrite append_empty_r.
  - cbn [split_at has_char]. destruct (Ascii.eqb c d) eqn:Hc.
    + apply Ascii.eqb_eq in Hc. subst c.
      rewrite last_cons_nonempty by apply split_at_nonempty.
      destruct (IH "" eq_refl) as [He Hcase]. cbn zeta in He, Hcase.
      remember (List.last (split_at d s "") "") as e eqn:Heqe. clear Heqe.
      split; [exact He |]. right.
      destruct Hcase as [[_ ->] | [stem Hstem]].
      * exists cur. reflexivity.
      * rewrite append_nil in Hstem. subst s.
        exists (cur ++ String d stem). clear.
        induction cur as [| a cur IHc]; [reflexivity |].
        rewrite !append_cons. now rewrite IHc.
    + destruct (IH (cur ++ String c "")) as [He Hcase];
        [now apply has_char_snoc |].
      cbn zeta in He, Hcase. rewrite append_snoc in Hcase.
      split; [exact He |]. cbn [orb].
      destruct Hcase as [[Hs ->] | Hstem]; [left | right; exact Hstem].
      split; [exact Hs | reflexivity].
Qed.

End Extension.

Section DataName.

Import ModelAppenderBase More.

Context {Time Model : Type}.
Implicit Types (self : t Time Model).

(** X7: with the extension used as name and at least one file,
    [GetDataName()] returns what follows the last dot of the first file
    name, a string without a dot; a first file name without a dot is
    returned whole. *)
Theorem GetDataName_extension self (first : string) (rest : list string) :
  __useExtName self = true ->
  _modelFileNames self = first :: rest ->
  exists ext,
    GetDataName self = Ok ext /\
    has_char "." ext = false /\
    ((has_char "." first = false /\ ext = first) \/
     exists stem, first = stem ++ String "." ext).
Proof.
  intros Hext Hnames.
  exists (split_last "." first).
  split.
  - unfold GetDataName, GetModelFileNames, HasModels.
    rewrite Hext, Hnames.
    assert (Hlen : (0 <? len (first :: rest)) = true).
    { apply Z.ltb_lt. unfold len. cbn [length]. rewrite Nat2Z.inj_succ. lia. }
    rewrite Hlen. cbn [negb].
    rewrite index_0. reflexivity.
  - destruct (split_at_last "." first "" eq_refl) as [He Hcase].
    cbn zeta in He, Hcase. rewrite !append_nil in Hcase.
    split; [exact He | exact Hcase].
Qed.

(** X8: [SetDataName(name)] followed by [GetDataName()] gives [name] back,
    for a non-empty [name] that differs from the stored one or when the
    explicit name is already in use. *)
Theorem SetDataName_then_GetDataName (name : string) self :
  name <> "" ->
  __dataname self <> name \/ __useExtName self = false ->
  GetDataName (SetDataName name self) = Ok name.
Proof.
  intros Hne Hchange. unfold SetDataName.
  destruct (String.eqb name "") eqn:E; [apply String.eqb_eq in E; contradiction |].
  destruct (String.eqb (__dataname self) name) eqn:Esame; cbn [negb].
  - apply String.eqb_eq in Esame.
    destruct Hchange as [H | H]; [contradiction |].
    unfold GetDataName. rewrite H. now rewrite Esame.
  - reflexivity.
Qed.

(** X9: [SetDataName] with the name that is already stored does nothing at
    all: it does not switch from the extension to the explicit name, and
    no [Modified] is raised. The same holds for [SetUseExtensionAsName]
    with the flag as it is. *)
Theorem SetDataName_same_name self :
  __dataname self <> "" ->
  SetDataName (__dataname self) self = self /\
  SetUseExtensionAsName (__useExtName self) self = self.
Proof.
  intros Hne. split.
  - unfold SetDataName.
    destruct (String.eqb (__dataname self) "") eqn:E;
      [apply String.eqb_eq in E; contradiction |].
    now rewrite String.eqb_refl.
  - unfold SetUseExtensionAsName. now rewrite Bool.eqb_reflx.
Qed.

End DataName.

(** ** The read flag and the time steps *)

Section ReadFlag.

Import ModelAppenderBase More.

Context {Time Model Grid : Type}.
Variable updateTimeSteps : list string -> Time -> list Time.
Implicit Types (self : t Time Model).

Lemma UpdateTimeSteps_flag self :
  __needToRead (snd (__UpdateTimeSteps updateTimeSteps self)) = __needToRead self.
Proof.
  unfold __UpdateTimeSteps.
  destruct (0 <? len (_modelFileNames self)); [| reflexivity].
  destruct (__inTimesteps self) as [ints |]; [| reflexivity].
  destruct (len ints <? len (_modelFileNames self)); reflexivity.
Qed.

(** X10: no method of the class but [NeedToRead(flag)] clears the read
    flag: once it is set, adding file names, clearing them, [Modified],
    the two setters of the name, [RequestInformation],
    [GetTimestepValues] and the query [NeedToRead()] all leave it set. *)
Theorem needToRead_not_cleared self (fname : pyarg) (flag readAgain : bool)
    (name : string) (ints : option (list Time)) (rectilinear : bool) (extent3 : Z) :
  __needToRead self = true ->
  __needToRead (AddModelFileName fname self) = true /\
  __needToRead (ClearModels self) = true /\
  __needToRead (Modified readAgain self) = true /\
  __needToRead (SetUseExtensionAsName flag self) = true /\
  __needToRead (SetDataName name self) = true /\
  __needToRead (snd (RequestInformation updateTimeSteps ints rectilinear extent3 self)) = true /\
  __needToRead (snd (GetTimestepValues ints self)) = true /\
  __needToRead (snd (NeedToRead updateTimeSteps None self)) = true.
Proof.
  intros Hflag.
  split. { now apply (frame_after_add fname self). }
  split; [reflexivity |].
  split. { cbn. now destruct readAgain. }
  split. { unfold SetUseExtensionAsName. now destruct (negb _). }
  split. { unfold SetDataName. destruct (String.eqb name ""); [assumption |].
           now destruct (negb _). }
  split.
  { unfold RequestInformation. cbn [__SetInputTimesteps].
    set (self1 := set_times _ _ _ self).
    pose proof (UpdateTimeSteps_flag self1) as H.
    destruct (__UpdateTimeSteps updateTimeSteps self1) as [[z | e] self2];
      cbn [snd set_times __needToRead] in *; rewrite H; exact Hflag. }
  split. { unfold GetTimestepValues. now destruct (__timesteps self). }
  assumption.
Qed.

(** X11: [NeedToRead(flag)] stores the flag in every case, and raises
    [TypeError] exactly when there are file names and the input time steps
    have never been set (they are [None] until [RequestInformation] or
    [GetTimestepValues] has run); otherwise it returns the flag. *)
Theorem NeedToRead_flag (b : bool) self :
  __needToRead (snd (NeedToRead updateTimeSteps (Some b) self)) = b /\
  fst (NeedToRead updateTimeSteps (Some b) self) =
    match __inTimesteps self with
    | None => if HasModels self then Err TypeError else Ok b
    | Some _ => Ok b
    end.
Proof.
  unfold NeedToRead, __UpdateTimeSteps, HasModels.
  cbn [set_needToRead _modelFileNames __inTimesteps].
  destruct (0 <? len (_modelFileNames self)).
  - destruct (__inTimesteps self) as [ints |]; [| split; reflexivity].
    destruct (len ints <? len (_modelFileNames self)); split; reflexivity.
  - destruct (__inTimesteps self); split; reflexivity.
Qed.

(** X12: [RequestInformation] never fails. It records the input time steps
    (none given: the empty list), classifies the grid as 2D exactly when it
    is rectilinear with [GetExtent()[3] == 1], replaces the time steps by
    [updateTimeSteps] exactly when there are more file names than input
    time steps, and leaves file names and models alone. After it,
    [NeedToRead(flag)] does not raise. *)
Theorem RequestInformation_then_NeedToRead (ints : option (list Time))
    (rectilinear : bool) (extent3 : Z) (b : bool) self :
  let self' := snd (RequestInformation updateTimeSteps ints rectilinear extent3 self) in
  fst (RequestInformation updateTimeSteps ints rectilinear extent3 self) = Ok 1 /\
  _is3D self' = Some (negb (rectilinear && (extent3 =? 1))) /\
  __inTimesteps self' = Some (default [] ints) /\
  __timesteps self' =
    (if HasModels self && (len (default [] ints) <? len (_modelFileNames self))
     then Some (updateTimeSteps (_modelFileNames self) (__dt self))
     else __timesteps self) /\
  _modelFileNames self' = _modelFileNames self /\
  _models self' = _models self /\
  fst (NeedToRead updateTimeSteps (Some b) self') = Ok b.
Proof.
  cbn zeta.
  assert (Hints : match ints with Some l => l | None => [] end = default [] ints)
    by now destruct ints.
  unfold RequestInformation, NeedToRead, __SetInputTimesteps, __UpdateTimeSteps, HasModels.
  cbn [set_times set_needToRead _modelFileNames __inTimesteps __timesteps _is3D __dt].
  rewrite Hints.
  destruct (0 <? len (_modelFileNames self)) eqn:Hhas; cbn [andb].
  - destruct (len (default [] ints) <? len (_modelFileNames self)) eqn:Hfew;
      cbn [fst snd set_times set_needToRead _modelFileNames __inTimesteps
           __timesteps _is3D __dt _models];
      rewrite Hhas; cbn [__inTimesteps]; rewrite ?Hfew; repeat split.
  - cbn [fst snd set_times set_needToRead _modelFileNames __inTimesteps
         __timesteps _is3D __dt _models].
    rewrite Hhas. repeat split.
Qed.

(** X13: [GetTimestepValues] always returns a list: the stored time steps,
    or the input time steps (none given: the empty list) when none are
    stored. A second call returns the same list and changes nothing, also
    when the input time steps have changed meanwhile. *)
Theorem GetTimestepValues_settles (ints ints' : option (list Time)) self :
  let values := match __timesteps self with
                | Some v => v
                | None => default [] ints
                end in
  fst (GetTimestepValues ints self) = Some values /\
  GetTimestepValues ints' (snd (GetTimestepValues ints self)) =
    (Some values, snd (GetTimestepValues ints self)).
Proof.
  cbn zeta. unfold GetTimestepValues.
  destruct (__timesteps self) as [values |] eqn:Ht.
  - cbn [fst snd]. rewrite Ht. split; reflexivity.
  - destruct ints; split; reflexivity.
Qed.

(** X14: with the two methods as the base class itself defines them, a
    request that needs a read fails with [NameError] (the body of
    [_ReadUpFront] misspells [NotImplementedError]), one that needs none
    fails with [NotImplementedError] when the index is below the number of
    models, and returns [1] with the copy of the input otherwise. *)
Theorem RequestData_base_class (pdi output : Grid) (i : Z) self :
  RequestData base_ReadUpFront base_PlaceOnMesh pdi output i self =
    if __needToRead self then (Err NameError, (self, pdi))
    else if i <? len (_models self) then (Err NotImplementedError, (self, pdi))
    else (Ok 1, (self, pdi)).
Proof.
  unfold RequestData. destruct (__needToRead self); [reflexivity |].
  destruct (i <? len (_models self)); reflexivity.
Qed.

End ReadFlag.

(** ** More on the mesh reader *)

Section ReaderMore.

Import Np ubcMeshReaderBase More.

Context {interp : Interpreter}.

Context {F : Type}.
Implicit Types (env : Env F) (self : t).

Lemma except_io_failure {A : Type} (r : result A) (msg : string) :
  io_failure r msg -> except_io r = Err (PVGeoError msg).
Proof. intros [-> | ->]; reflexivity. Qed.

(** X15: a file that cannot be opened or read makes [_ReadExtent], the 2D
    decoder and [ubcModel3D] raise [PVGeoError] with the message of the
    I/O error; [_ReadExtent] leaves the reader as it was. *)
Theorem unreadable_file_PVGeoError env self (path msg : string) :
  io_failure (read_text env (MeshFileName self)) msg ->
  io_failure (genfromtxt_float env path) msg ->
  _ReadExtent env self = (Err (PVGeoError msg), self) /\
  _ubcMesh2D_part env (MeshFileName self) = Err (PVGeoError msg) /\
  ubcModel3D env (PStr path) = Err (PVGeoError msg).
Proof.
  intros Hmesh Hmodel.
  assert (Hgen : forall rows,
            io_failure (genfromtxt_str env (MeshFileName self) rows) msg).
  { intros rows. unfold genfromtxt_str. destruct Hmesh as [-> | ->]; [left | right]; reflexivity. }
  split; [| split].
  - unfold _ReadExtent, read_first_line.
    assert (Hfirst :
      io_failure
        (if has_max_rows env
         then genfromtxt_str env (MeshFileName self) (Some 1%nat)
         else (a ← genfromtxt_str env (MeshFileName self) None;
               s ← getitem a 0; Ok (Scalar s))) msg).
    { destruct (has_max_rows env); [apply Hgen |].
      destruct (Hgen None) as [-> | ->]; [left | right]; reflexivity. }
    rewrite (except_io_failure _ _ Hfirst). reflexivity.
  - unfold _ubcMesh2D_part. rewrite (except_io_failure _ _ (Hgen None)). reflexivity.
  - unfold ubcModel3D. cbn [ubcModel3D_in].
    rewrite (except_io_failure _ _ Hmodel). reflexivity.
Qed.

(** X16: a mesh file without a retained line (empty, or comments and blank
    lines only) makes [_ReadExtent] and the 2D decoder raise [IndexError],
    on either branch of the version test; the reader stays as it was. *)
Theorem no_retained_line_IndexError env self (raw : list string) :
  read_text env (MeshFileName self) = Ok raw ->
  retained raw = [] ->
  _ReadExtent env self = (Err IndexError, self) /\
  _ubcMesh2D_part env (MeshFileName self) = Err IndexError.
Proof.
  intros Hread Hnone. split.
  - unfold _ReadExtent, read_first_line, genfromtxt_str.
    rewrite Hread. run. rewrite Hnone.
    destruct (has_max_rows env); reflexivity.
  - unfold _ubcMesh2D_part, genfromtxt_str. rewrite Hread. run. rewrite Hnone.
    reflexivity.
Qed.

Lemma ReadExtent_by_file env self other :
  MeshFileName other = MeshFileName self ->
  fst (_ReadExtent env other) = fst (_ReadExtent env self).
Proof.
  intros Hother. unfold _ReadExtent. rewrite Hother.
  destruct (mbind _ _); reflexivity.
Qed.

(** X17: [_ReadExtent] touches nothing but the cached header size, and its
    result depends on the reader only through the mesh file name: a second
    call gives the same result and the same reader, and the setters of the
    name do not change the result. *)
Theorem ReadExtent_again env self (flag : bool) (name : string) :
  let self' := snd (_ReadExtent env self) in
  _ReadExtent env self' = (fst (_ReadExtent env self), self') /\
  MeshFileName self' = MeshFileName self /\
  __dataname self' = __dataname self /\
  __useExtName self' = __useExtName self /\
  Modified_calls self' = Modified_calls self /\
  fst (_ReadExtent env (SetUseExtensionAsName flag self)) = fst (_ReadExtent env self) /\
  fst (_ReadExtent env (SetDataName name self)) = fst (_ReadExtent env self).
Proof.
  cbn zeta.
  assert (Hsame : MeshFileName (snd (_ReadExtent env self)) = MeshFileName self).
  { unfold _ReadExtent. destruct (mbind _ _); reflexivity. }
  split.
  - unfold _ReadExtent at 1. rewrite Hsame.
    unfold _ReadExtent. destruct (mbind _ _) as [sizeM | e]; reflexivity.
  - split; [exact Hsame |].
    repeat split.
    + unfold _ReadExtent. destruct (mbind _ _); reflexivity.
    + unfold _ReadExtent. destruct (mbind _ _); reflexivity.
    + unfold _ReadExtent. destruct (mbind _ _); reflexivity.
    + apply ReadExtent_by_file.
      unfold SetUseExtensionAsName. destruct (negb _); reflexivity.
    + apply ReadExtent_by_file.
      unfold SetDataName. destruct (String.eqb name ""); [reflexivity |].
      destruct (negb _); reflexivity.
Qed.

(** X18: once the header line has been converted, [Is2D()] and [Is3D()]
    answer from its number of integers, whether or not the extent
    computation then succeeds; after a header of two integers, which
    [_ReadExtent] rejects, both answer [False]. *)
Theorem header_size_decides env self (header : string) (sizeM : list Z) :
  first_retained_line env (MeshFileName self) header ->
  int_array (split header) = Ok sizeM ->
  let self' := snd (_ReadExtent env self) in
  Is2D self' = Ok (len sizeM =? 1) /\
  Is3D self' = Ok (3 <=? len sizeM) /\
  (len sizeM = 2 ->
   fst (_ReadExtent env self) = Err (PVGeoError "File format not recognized") /\
   Is2D self' = Ok false /\ Is3D self' = Ok false).
Proof.
  intros Hh Hsz. cbn zeta.
  rewrite (ReadExtent_header env self header sizeM Hh Hsz). cbn [fst snd].
  unfold Is2D, Is3D, sizeM_shape0. cbn [set_sizeM __sizeM]. run.
  split; [reflexivity |]. split; [reflexivity |].
  intros Htwo. unfold extent_of_size. rewrite Htwo. repeat split.
Qed.

(** X19: the setters of the name of the reader never ask for the mesh or
    the models to be read again: each either leaves the reader as it is or
    raises [Modified(readAgainMesh=False, readAgainModels=False)] once; the
    mesh file name is not touched. *)
Theorem reader_names_never_reread (flag : bool) (name : string) self :
  (SetUseExtensionAsName flag self = self \/
   Modified_calls (SetUseExtensionAsName flag self) =
     (false, false) :: Modified_calls self) /\
  (SetDataName name self = self \/
   Modified_calls (SetDataName name self) = (false, false) :: Modified_calls self) /\
  MeshFileName (SetUseExtensionAsName flag self) = MeshFileName self /\
  MeshFileName (SetDataName name self) = MeshFileName self.
Proof.
  repeat split.
  - unfold SetUseExtensionAsName. destruct (negb _); [right | left]; reflexivity.
  - unfold SetDataName. destruct (String.eqb name ""); [right; reflexivity |].
    destruct (negb _); [right | left]; reflexivity.
  - unfold SetUseExtensionAsName. destruct (negb _); reflexivity.
  - unfold SetDataName. destruct (String.eqb name ""); [reflexivity |].
    destruct (negb _); reflexivity.
Qed.

End ReaderMore.

(** ** What the 2D decoder returns *)

Section Decoder.

Import Np ubcMeshReaderBase More.

Context {interp : Interpreter}.


Context {F : Type}.


End Decoder.

(** ** A count below zero *)

Section NegativeCount.

Import Np ubcMeshReaderBase More.

Context {interp : Interpreter}.

Context {F : Type}.


End NegativeCount.

(** ** The further properties at concrete inputs *)

Section MoreAppenderInstances.

Import ModelAppenderBase More.

(** The three names of the loaded appender are distinct, and stay so when a
    list with an old and a new name, twice each, is added. *)
Lemma AddModelFileName_NoDup_witness :
  NoDup (_modelFileNames Demo.loaded) /\
  NoDup (_modelFileNames
           (AddModelFileName
              (PList [PStr "run/t1.mod"; PStr "run/t3.mod";
                      PList [PStr "run/t3.mod"; PNone; PStr "run/t1.mod"]])
              Demo.loaded)).
Proof.
  assert (Hnd : NoDup (_modelFileNames Demo.loaded)).
  { vm_compute. repeat (apply NoDup_cons_2; [rewrite list_elem_of_In; cbn; intuition discriminate |]).
    apply NoDup_nil_2. }
  split; [exact Hnd |].
  exact (AddModelFileName_NoDup _ Demo.loaded Hnd).
Defined.

(** A new name inside a nested list, next to [None]. *)
Lemma AddModelFileName_all_present_witness :
  In "run/t3.mod"
    (strings_of (PList [PStr "run/t1.mod"; PList [PStr "run/t3.mod"; PNone]])) /\
  In "run/t3.mod"
    (_modelFileNames
       (AddModelFileName
          (PList [PStr "run/t1.mod"; PList [PStr "run/t3.mod"; PNone]])
          Demo.loaded)).
Proof.
  assert (Hin : In "run/t3.mod"
                  (strings_of (PList [PStr "run/t1.mod"; PList [PStr "run/t3.mod"; PNone]]))).
  { vm_compute. right. left. reflexivity. }
  split; [exact Hin |].
  exact (AddModelFileName_all_present _ Demo.loaded "run/t3.mod" Hin).
Defined.

(** A fourth name for the loaded appender. *)
Lemma AddModelFileName_then_last_witness :
  ~ In "run/t3.mod" (_modelFileNames Demo.loaded) /\
  GetModelFileNames (Some (-1)) (AddModelFileName (PStr "run/t3.mod") Demo.loaded) =
    Ok (Name "run/t3.mod") /\
  GetModelFileNames (Some 3) (AddModelFileName (PStr "run/t3.mod") Demo.loaded) =
    Ok (Name "run/t3.mod").
Proof.
  assert (Hnew : ~ In "run/t3.mod" (_modelFileNames Demo.loaded)).
  { vm_compute. intuition discriminate. }
  split; [exact Hnew |].
  exact (AddModelFileName_then_last "run/t3.mod" Demo.loaded Hnew).
Defined.

(** The data name of the loaded appender is the extension of its first file. *)
Lemma GetDataName_extension_witness :
  __useExtName Demo.loaded = true /\
  _modelFileNames Demo.loaded = "run/t0.mod" :: ["run/t1.mod"; "run/t2.mod"] /\
  exists ext,
    GetDataName Demo.loaded = Ok ext /\
    has_char "." ext = false /\
    ((has_char "." "run/t0.mod" = false /\ ext = "run/t0.mod") \/
     exists stem, "run/t0.mod" = stem ++ String "." ext).
Proof.
  assert (Hext : __useExtName Demo.loaded = true) by (vm_compute; reflexivity).
  assert (Hnames : _modelFileNames Demo.loaded
                   = "run/t0.mod" :: ["run/t1.mod"; "run/t2.mod"])
    by (vm_compute; reflexivity).
  split; [exact Hext |]. split; [exact Hnames |].
  exact (GetDataName_extension Demo.loaded _ _ Hext Hnames).
Defined.

(** An explicit name for the loaded appender. *)
Lemma SetDataName_then_GetDataName_witness :
  "Resistivity" <> "" /\
  (__dataname Demo.loaded <> "Resistivity" \/ __useExtName Demo.loaded = false) /\
  GetDataName (SetDataName "Resistivity" Demo.loaded) = Ok "Resistivity".
Proof.
  assert (Hne : "Resistivity" <> "") by discriminate.
  assert (Hold : __dataname Demo.loaded <> "Resistivity" \/ __useExtName Demo.loaded = false).
  { left. vm_compute. discriminate. }
  split; [exact Hne |]. split; [exact Hold |].
  exact (SetDataName_then_GetDataName "Resistivity" Demo.loaded Hne Hold).
Defined.

(** The new appender keeps naming by extension when given its default name. *)
Lemma SetDataName_same_name_witness :
  __dataname Demo.fresh = "Appended Data" /\
  __useExtName Demo.fresh = true /\
  SetDataName "Appended Data" Demo.fresh = Demo.fresh /\
  SetUseExtensionAsName true Demo.fresh = Demo.fresh.
Proof.
  split; [reflexivity |]. split; [reflexivity |].
  apply (SetDataName_same_name Demo.fresh). discriminate.
Defined.

(** The new appender, whose read flag is set. *)
Lemma needToRead_not_cleared_witness :
  __needToRead Demo.fresh = true /\
  __needToRead (AddModelFileName (PStr "run/t0.mod") Demo.fresh) = true /\
  __needToRead (SetDataName "Resistivity" Demo.fresh) = true /\
  __needToRead
    (snd (RequestInformation Demo.updateTimeSteps None true 1 Demo.fresh)) = true.
Proof.
  destruct (needToRead_not_cleared Demo.updateTimeSteps Demo.fresh
              (PStr "run/t0.mod") false false "Resistivity" None true 1 eq_refl)
    as (H1 & _ & _ & _ & H5 & H6 & _).
  split; [reflexivity |]. split; [exact H1 |]. split; [exact H5 | exact H6].
Defined.

End MoreAppenderInstances.

Section MoreReaderInstances.

Import Np ubcMeshReaderBase More.

#[local] Existing Instance Demo.interpreter.

(** A path that is not in the table of files. *)
Lemma unreadable_file_PVGeoError_witness :
  io_failure (read_text Demo.env "missing.msh")
    "No such file or directory: missing.msh" /\
  _ReadExtent Demo.env (__init__ "missing.msh") =
    (Err (PVGeoError "No such file or directory: missing.msh"), __init__ "missing.msh") /\
  _ubcMesh2D_part Demo.env "missing.msh" =
    Err (PVGeoError "No such file or directory: missing.msh") /\
  ubcModel3D Demo.env (PStr "missing.msh") =
    Err (PVGeoError "No such file or directory: missing.msh").
Proof.
  assert (Hmesh : io_failure (read_text Demo.env "missing.msh")
                    "No such file or directory: missing.msh") by (left; reflexivity).
  assert (Hmodel : io_failure (genfromtxt_float Demo.env "missing.msh")
                     "No such file or directory: missing.msh") by (left; reflexivity).
  split; [exact Hmesh |].
  exact (unreadable_file_PVGeoError Demo.env (__init__ "missing.msh") "missing.msh"
           _ Hmesh Hmodel).
Defined.

(** A mesh file of comments and blank lines, on both branches of the version test. *)
Lemma no_retained_line_IndexError_witness :
  retained ["! UBC mesh"; ""; "   ! nothing else"] = [] /\
  (_ReadExtent (comments_only (1, 15)) (__init__ "comments.msh") =
     (Err IndexError, __init__ "comments.msh") /\
   _ubcMesh2D_part (comments_only (1, 15)) "comments.msh" = Err IndexError) /\
  (_ReadExtent (comments_only (1, 9)) (__init__ "comments.msh") =
     (Err IndexError, __init__ "comments.msh") /\
   _ubcMesh2D_part (comments_only (1, 9)) "comments.msh" = Err IndexError).
Proof.
  split; [reflexivity |]. split.
  - exact (no_retained_line_IndexError (comments_only (1, 15)) (__init__ "comments.msh")
             _ eq_refl eq_refl).
  - exact (no_retained_line_IndexError (comments_only (1, 9)) (__init__ "comments.msh")
             _ eq_refl eq_refl).
Defined.

(** The reader after the header of two integers was rejected. *)
Lemma header_size_decides_witness :
  first_retained_line Demo.env "two.msh" "4 5" /\
  int_array (split "4 5") = Ok [4; 5] /\
  fst (_ReadExtent Demo.env (__init__ "two.msh")) =
    Err (PVGeoError "File format not recognized") /\
  Is2D (snd (_ReadExtent Demo.env (__init__ "two.msh"))) = Ok false /\
  Is3D (snd (_ReadExtent Demo.env (__init__ "two.msh"))) = Ok false.
Proof.
  split; [exact two_msh |]. split; [reflexivity |].
  destruct (header_size_decides Demo.env (__init__ "two.msh") "4 5" [4; 5]
              two_msh eq_refl) as (_ & _ & H).
  apply H. reflexivity.
Defined.



End MoreReaderInstances.
